(** * Voice Services communications gateway resource

    A shallow embedding of
    [internal/services/voiceservices/voice_services_communications_gateway_resource.go]:
    the flat configuration model, the remote (SDK) shape, the expand and
    flatten translators, and the CustomizeDiff / Create / Update / Read
    handlers, followed by the properties of the specification that concern
    them. *)

From Stdlib Require Import Ascii.
From stdpp Require Import base strings list gmap.

Local Open Scope string_scope.

(** ** Go values

    A Go slice is either [nil] or a (possibly empty) run of elements, a
    pointer is either [nil] or the address of a value, and the two are kept
    apart: the resource distinguishes a nil slice from an empty one and a nil
    pointer from a pointer to a nil value. *)

Module Go.

Inductive slice (A : Type) : Type :=
| nil_slice
| Slice (l : list A).
Global Arguments nil_slice {A}.
Global Arguments Slice {A} l.

Inductive ptr (A : Type) : Type :=
| nil_ptr
| Ref (v : A).
Global Arguments nil_ptr {A}.
Global Arguments Ref {A} v.

(** [map[string]string]: nil, or a finite map. *)
Inductive map (V : Type) : Type :=
| nil_map
| Map (m : gmap string V).
Global Arguments nil_map {V}.
Global Arguments Map {V} m.

(** The elements a [for _, v := range s] loop visits. *)
Definition elems {A} (s : slice A) : list A :=
  match s with
  | nil_slice => []
  | Slice l => l
  end.

Definition len {A} (s : slice A) : nat := length (elems s).

Definition is_nil {A} (s : slice A) : bool :=
  match s with
  | nil_slice => true
  | Slice _ => false
  end.

(** [make([]T, 0)] *)
Definition make {A} : slice A := Slice [].

(** [append(s, x)]: the result is never nil. *)
Definition append {A} (s : slice A) (x : A) : slice A := Slice (elems s ++ [x]).

(** [for _, v := range s { acc = body(acc, v) }] *)
Definition range {A B} (s : slice A) (body : B → A → B) (acc : B) : B :=
  fold_left body (elems s) acc.

End Go.

Import Go.

(** ** Errors *)

(** Identity of a communications gateway:
    [communicationsgateways.CommunicationsGatewayId]. *)
Record CommunicationsGatewayId := NewCommunicationsGatewayID {
  SubscriptionId : string;
  ResourceGroupName : string;
  CommunicationsGatewayName : string;
}.

(** A Go [error] value.  [Errorf] keeps the format string and the arguments of
    a [fmt.Errorf] call, [ImportAsExistsError] is the import-required signal,
    and [Failure] stands for an error raised by a collaborator (decoder,
    identity parser, JSON codec, remote client). *)
Inductive error : Type :=
| Errorf (format : string) (args : list fmtarg)
| ImportAsExistsError (resourceName : string) (id : CommunicationsGatewayId)
| Failure (msg : string)
with fmtarg : Type :=
| ArgString (s : string)
| ArgId (id : CommunicationsGatewayId)
| ArgError (e : error).

(** A Go [(value, error)] result in which exactly one side is meaningful. *)
Inductive result (A : Type) : Type :=
| Ok (a : A)
| Err (e : error).
Arguments Ok {A} a.
Arguments Err {A} e.

(** ** The remote shape (package [communicationsgateways] of the SDK)

    The records list the fields the resource reads or writes.  The SDK's
    enumerations are Go string types, so they are strings here. *)

Module communicationsgateways.

Definition E911Type := string.
Definition E911TypeStandard : E911Type := "Standard".
Definition E911TypeDirectToEsrp : E911Type := "DirectToEsrp".

Definition TeamsCodecs := string.
Definition CommunicationsPlatform := string.
Definition Connectivity := string.
Definition AutoGeneratedDomainNameLabelScope := string.

Module PrimaryRegionProperties.
Record t := mk {
  AllowedMediaSourceAddressPrefixes : ptr (slice string);
  AllowedSignalingSourceAddressPrefixes : ptr (slice string);
  EsrpAddresses : ptr (slice string);
  OperatorAddresses : slice string;
}.
End PrimaryRegionProperties.

Module ServiceRegionProperties.
Record t := mk {
  Name : string;
  PrimaryRegionProperties : PrimaryRegionProperties.t;
}.
End ServiceRegionProperties.

(** [CommunicationsGatewayProperties]; [JSON] is the type of the values
    [encoding/json] decodes into an [interface{}], and a nil interface is
    [None]. *)
Module CommunicationsGatewayProperties.
Record t {JSON : Type} := mk {
  ApiBridge : ptr (option JSON);
  AutoGeneratedDomainNameLabelScope : ptr AutoGeneratedDomainNameLabelScope;
  Codecs : slice TeamsCodecs;
  Connectivity : Connectivity;
  E911Type : E911Type;
  EmergencyDialStrings : ptr (slice string);
  OnPremMcpEnabled : ptr bool;
  Platforms : slice CommunicationsPlatform;
  ServiceLocations : slice ServiceRegionProperties.t;
  TeamsVoicemailPilotNumber : ptr string;
}.
Global Arguments t : clear implicits.
Global Arguments mk {JSON}.

(** Field assignments [p.F = v]. *)
Definition set_ApiBridge {JSON} (v : ptr (option JSON)) (p : t JSON) : t JSON :=
  mk v (AutoGeneratedDomainNameLabelScope p) (Codecs p) (Connectivity p)
     (E911Type p) (EmergencyDialStrings p) (OnPremMcpEnabled p) (Platforms p)
     (ServiceLocations p) (TeamsVoicemailPilotNumber p).
Definition set_Codecs {JSON} (v : slice TeamsCodecs) (p : t JSON) : t JSON :=
  mk (ApiBridge p) (AutoGeneratedDomainNameLabelScope p) v (Connectivity p)
     (E911Type p) (EmergencyDialStrings p) (OnPremMcpEnabled p) (Platforms p)
     (ServiceLocations p) (TeamsVoicemailPilotNumber p).
Definition set_E911Type {JSON} (v : communicationsgateways.E911Type) (p : t JSON) : t JSON :=
  mk (ApiBridge p) (AutoGeneratedDomainNameLabelScope p) (Codecs p) (Connectivity p)
     v (EmergencyDialStrings p) (OnPremMcpEnabled p) (Platforms p)
     (ServiceLocations p) (TeamsVoicemailPilotNumber p).
Definition set_EmergencyDialStrings {JSON} (v : ptr (slice string)) (p : t JSON) : t JSON :=
  mk (ApiBridge p) (AutoGeneratedDomainNameLabelScope p) (Codecs p) (Connectivity p)
     (E911Type p) v (OnPremMcpEnabled p) (Platforms p)
     (ServiceLocations p) (TeamsVoicemailPilotNumber p).
Definition set_OnPremMcpEnabled {JSON} (v : ptr bool) (p : t JSON) : t JSON :=
  mk (ApiBridge p) (AutoGeneratedDomainNameLabelScope p) (Codecs p) (Connectivity p)
     (E911Type p) (EmergencyDialStrings p) v (Platforms p)
     (ServiceLocations p) (TeamsVoicemailPilotNumber p).
Definition set_Platforms {JSON} (v : slice CommunicationsPlatform) (p : t JSON) : t JSON :=
  mk (ApiBridge p) (AutoGeneratedDomainNameLabelScope p) (Codecs p) (Connectivity p)
     (E911Type p) (EmergencyDialStrings p) (OnPremMcpEnabled p) v
     (ServiceLocations p) (TeamsVoicemailPilotNumber p).
Definition set_ServiceLocations {JSON} (v : slice ServiceRegionProperties.t) (p : t JSON) : t JSON :=
  mk (ApiBridge p) (AutoGeneratedDomainNameLabelScope p) (Codecs p) (Connectivity p)
     (E911Type p) (EmergencyDialStrings p) (OnPremMcpEnabled p) (Platforms p)
     v (TeamsVoicemailPilotNumber p).
Definition set_TeamsVoicemailPilotNumber {JSON} (v : ptr string) (p : t JSON) : t JSON :=
  mk (ApiBridge p) (AutoGeneratedDomainNameLabelScope p) (Codecs p) (Connectivity p)
     (E911Type p) (EmergencyDialStrings p) (OnPremMcpEnabled p) (Platforms p)
     (ServiceLocations p) v.
End CommunicationsGatewayProperties.

Module CommunicationsGateway.
Record t {JSON : Type} := mk {
  Location : string;
  Properties : ptr (CommunicationsGatewayProperties.t JSON);
  Tags : ptr (Go.map string);
}.
Global Arguments t : clear implicits.
Global Arguments mk {JSON}.

Definition set_Properties {JSON} (v : ptr (CommunicationsGatewayProperties.t JSON))
    (r : t JSON) : t JSON :=
  mk (Location r) v (Tags r).
Definition set_Tags {JSON} (v : ptr (Go.map string)) (r : t JSON) : t JSON :=
  mk (Location r) (Properties r) v.
End CommunicationsGateway.

End communicationsgateways.

(** ** The flat configuration model *)

Module ServiceRegionPropertiesModel.
Record t := mk {
  Location : string;
  OperatorAddresses : slice string;
  AllowedMediaSourceAddressPrefixes : slice string;
  AllowedSignalingSourceAddressPrefixes : slice string;
  EsrpAddresses : slice string;
}.
End ServiceRegionPropertiesModel.

Module CommunicationsGatewayModel.
Record t := mk {
  Name : string;
  ResourceGroupName : string;
  ApiBridge : string;
  AutoGeneratedDomainNameLabelScope : communicationsgateways.AutoGeneratedDomainNameLabelScope;
  Codecs : string;
  Connectivity : string;
  E911Type : communicationsgateways.E911Type;
  EmergencyDialStrings : slice string;
  Location : string;
  OnPremMcpEnabled : bool;
  Platforms : slice string;
  ServiceLocation : slice ServiceRegionPropertiesModel.t;
  Tags : Go.map string;
  MicrosoftTeamsVoicemailPilotNumber : string;
}.
End CommunicationsGatewayModel.

(** ** Collaborators *)

Module http.
(** [http.Response], of which only the status code is inspected. *)
Record Response := mk { StatusCode : Z }.
End http.

(** What the resource takes from outside this repository: the location
    normaliser and the not-found test of go-azure-helpers, [encoding/json]
    into and out of an [interface{}], and the identity parser and renderer of
    the SDK. *)
Class External (JSON : Type) := {
  location_Normalize : string → string;
  response_WasNotFound : ptr http.Response → bool;
  json_Unmarshal : string → result (option JSON);
  json_Marshal : JSON → result string;
  ParseCommunicationsGatewayID : string → result CommunicationsGatewayId;
  ID : CommunicationsGatewayId → string;
}.

Module utils.
(** Modelled from the spec: [utils.StringSlice] (package [utils] of this
    repository, outside the file embedded here).  An empty input slice becomes
    a genuine empty collection behind a pointer; a slice that was never
    populated becomes a nil pointer. *)
Definition StringSlice (input : slice string) : ptr (slice string) :=
  if is_nil input then nil_ptr else Ref input.
End utils.

(** [GetOperationResponse] of the SDK client. *)
Record GetOperationResponse {JSON : Type} := {
  HttpResponse : ptr http.Response;
  Model : ptr (communicationsgateways.CommunicationsGateway.t JSON);
}.
Arguments GetOperationResponse : clear implicits.

(** The remote client over a remote state [W].  [Get] only reads. *)
Record CommunicationsGatewaysClient {JSON W : Type} := {
  Get : CommunicationsGatewayId → W → GetOperationResponse JSON * option error;
  CreateOrUpdateThenPoll :
    CommunicationsGatewayId → communicationsgateways.CommunicationsGateway.t JSON →
    W → option error * W;
  DeleteThenPoll : CommunicationsGatewayId → W → option error * W;
}.
Arguments CommunicationsGatewaysClient : clear implicits.

(** What the host hands to a handler through [sdk.ResourceMetaData]: the
    subscription of the account, the decoded configuration (or the decoding
    error), the decoded planned configuration, and the per-field
    [ResourceData.HasChange] test. *)
Record ResourceMetaData := {
  Account_SubscriptionId : string;
  Decode : result CommunicationsGatewayModel.t;
  DecodeDiff : result CommunicationsGatewayModel.t;
  HasChange : string → bool;
}.

(** ** Translators *)

Section Translators.
Context {JSON : Type} {ext : External JSON}.

Import communicationsgateways.

(** [expandServiceRegionPropertiesModel] *)
Definition expandServiceRegionPropertiesModel
    (inputList : slice ServiceRegionPropertiesModel.t) : slice ServiceRegionProperties.t :=
  let outputList := make in
  range inputList (λ outputList v,
    let output := {|
      ServiceRegionProperties.Name :=
        location_Normalize (ServiceRegionPropertiesModel.Location v);
      ServiceRegionProperties.PrimaryRegionProperties := {|
        PrimaryRegionProperties.AllowedMediaSourceAddressPrefixes :=
          utils.StringSlice (ServiceRegionPropertiesModel.AllowedMediaSourceAddressPrefixes v);
        PrimaryRegionProperties.AllowedSignalingSourceAddressPrefixes :=
          utils.StringSlice (ServiceRegionPropertiesModel.AllowedSignalingSourceAddressPrefixes v);
        PrimaryRegionProperties.EsrpAddresses :=
          utils.StringSlice (ServiceRegionPropertiesModel.EsrpAddresses v);
        PrimaryRegionProperties.OperatorAddresses :=
          ServiceRegionPropertiesModel.OperatorAddresses v;
      |}
    |} in
    append outputList output) outputList.

(** [expandCommunicationsPlatformModel] *)
Definition expandCommunicationsPlatformModel (input : slice string) : slice CommunicationsPlatform :=
  if bool_decide (len input = 0) then nil_slice
  else
    let output := nil_slice in
    range input (λ output v,
      let platform : CommunicationsPlatform := v in
      append output platform) output.

(** One iteration of the loop of [flattenServiceRegionPropertiesModel]. *)
Definition flattenServiceRegionProperties (input : ServiceRegionProperties.t) :
    ServiceRegionPropertiesModel.t :=
  let v := ServiceRegionProperties.PrimaryRegionProperties input in
  {| ServiceRegionPropertiesModel.Location :=
       location_Normalize (ServiceRegionProperties.Name input);
     ServiceRegionPropertiesModel.OperatorAddresses :=
       if is_nil (PrimaryRegionProperties.OperatorAddresses v) then nil_slice
       else PrimaryRegionProperties.OperatorAddresses v;
     ServiceRegionPropertiesModel.AllowedMediaSourceAddressPrefixes :=
       match PrimaryRegionProperties.AllowedMediaSourceAddressPrefixes v with
       | nil_ptr => nil_slice
       | Ref s => s
       end;
     ServiceRegionPropertiesModel.AllowedSignalingSourceAddressPrefixes :=
       match PrimaryRegionProperties.AllowedSignalingSourceAddressPrefixes v with
       | nil_ptr => nil_slice
       | Ref s => s
       end;
     ServiceRegionPropertiesModel.EsrpAddresses :=
       match PrimaryRegionProperties.EsrpAddresses v with
       | nil_ptr => nil_slice
       | Ref s => s
       end |}.

(** [flattenServiceRegionPropertiesModel] *)
Definition flattenServiceRegionPropertiesModel
    (inputList : ptr (slice ServiceRegionProperties.t)) : slice ServiceRegionPropertiesModel.t :=
  let outputList := make in
  match inputList with
  | nil_ptr => outputList
  | Ref inputList =>
      range inputList (λ outputList input,
        append outputList (flattenServiceRegionProperties input)) outputList
  end.

(** [flattenCommunicationsPlatformModel] *)
Definition flattenCommunicationsPlatformModel (input : slice CommunicationsPlatform) : slice string :=
  let output := make in
  if bool_decide (len input = 0) then nil_slice
  else range input (λ output v, append output (v : string)) output.

End Translators.

(** ** Handlers

    A handler runs against the remote client and the host's resource data.
    The state records the remote state, the remote calls issued so far (oldest
    first), the identifier the host tracks for the instance (the empty string
    once it is marked gone) and the state last written with [Encode]. *)

Inductive Call {JSON : Type} : Type :=
| CallGet (id : CommunicationsGatewayId)
| CallCreateOrUpdate (id : CommunicationsGatewayId)
    (resource : communicationsgateways.CommunicationsGateway.t JSON)
| CallDelete (id : CommunicationsGatewayId).
Arguments Call : clear implicits.

(** Whether a call changes the remote side. *)
Definition mutating {JSON} (c : Call JSON) : bool :=
  match c with
  | CallGet _ => false
  | CallCreateOrUpdate _ _ | CallDelete _ => true
  end.

Record St {JSON W : Type} := mkSt {
  remote : W;
  calls : list (Call JSON);
  ResourceData_Id : string;
  encoded : option CommunicationsGatewayModel.t;
}.
Arguments St : clear implicits.
Arguments mkSt {JSON W}.

(** How a piece of a handler ends: it falls through with a value, the handler
    returns ([Return None] is [return nil]), or the Go runtime panics on a nil
    dereference. *)
Inductive Outcome (A : Type) : Type :=
| Next (a : A)
| Return (err : option error)
| Panic.
Arguments Next {A} a.
Arguments Return {A} err.
Arguments Panic {A}.

Definition M (JSON W A : Type) : Type := St JSON W → Outcome A * St JSON W.

Global Instance M_ret {JSON W} : MRet (M JSON W) := λ A a s, (Next a, s).

Global Instance M_bind {JSON W} : MBind (M JSON W) := λ A B k m s,
  match m s with
  | (Next a, s') => k a s'
  | (Return err, s') => (Return err, s')
  | (Panic, s') => (Panic, s')
  end.

(** The body of a [sdk.ResourceFunc]: every path ends in a return. *)
Abbreviation ResourceFunc JSON W := (M JSON W Empty_set).

Section Handlers.
Context {JSON : Type} {ext : External JSON} {W : Type}.
Variable client : CommunicationsGatewaysClient JSON W.

Import communicationsgateways.

Abbreviation M := (M JSON W).

(** [return err] *)
Definition return_ {A} (err : option error) : M A := λ s, (Return err, s).

(** A nil pointer dereference. *)
Definition panic {A} : M A := λ s, (Panic, s).

Definition record (c : Call JSON) (s : St JSON W) : St JSON W :=
  mkSt (remote s) (calls s ++ [c]) (ResourceData_Id s) (encoded s).

(** [client.Get(ctx, id)] *)
Definition client_Get (id : CommunicationsGatewayId) :
    M (GetOperationResponse JSON * option error) := λ s,
  (Next (Get client id (remote s)), record (CallGet id) s).

(** [client.CreateOrUpdateThenPoll(ctx, id, resource)] *)
Definition client_CreateOrUpdateThenPoll (id : CommunicationsGatewayId)
    (resource : CommunicationsGateway.t JSON) : M (option error) := λ s,
  let '(err, w) := CreateOrUpdateThenPoll client id resource (remote s) in
  (Next err,
   mkSt w (calls s ++ [CallCreateOrUpdate id resource]) (ResourceData_Id s) (encoded s)).

(** [client.DeleteThenPoll(ctx, id)] *)
Definition client_DeleteThenPoll (id : CommunicationsGatewayId) : M (option error) := λ s,
  let '(err, w) := DeleteThenPoll client id (remote s) in
  (Next err, mkSt w (calls s ++ [CallDelete id]) (ResourceData_Id s) (encoded s)).

(** [metadata.ResourceData.Id()] *)
Definition metadata_ResourceData_Id : M string := λ s, (Next (ResourceData_Id s), s).

(** Modelled from the spec: [metadata.SetID] (package [internal/sdk] of this
    repository, outside the file embedded here).  The created resource is
    tracked under its composite identity, rendered to a single string. *)
Definition metadata_SetID (id : CommunicationsGatewayId) : M () := λ s,
  (Next (), mkSt (remote s) (calls s) (ID id) (encoded s)).

(** Modelled from the spec: [metadata.MarkAsGone] (package [internal/sdk] of
    this repository, outside the file embedded here).  It marks the locally
    tracked instance absent, and that is not an error. *)
Definition metadata_MarkAsGone (id : CommunicationsGatewayId) : M (option error) := λ s,
  (Next None, mkSt (remote s) (calls s) "" (encoded s)).

(** Modelled from the spec: [metadata.Encode] (package [internal/sdk] of this
    repository, outside the file embedded here).  The reconciler encodes the
    model into the persisted state. *)
Definition metadata_Encode (state : CommunicationsGatewayModel.t) : M (option error) := λ s,
  (Next None, mkSt (remote s) (calls s) (ResourceData_Id s) (Some state)).

(** Modelled from the spec: [metadata.ResourceRequiresImport] (package
    [internal/sdk] of this repository, outside the file embedded here).  The
    conflict is surfaced as the import-required signal, distinct from a
    generic error. *)
Definition metadata_ResourceRequiresImport (resourceName : string)
    (id : CommunicationsGatewayId) : option error :=
  Some (ImportAsExistsError resourceName id).

Definition ResourceType : string := "azurerm_voice_services_communications_gateway".

(** The loop of [CustomizeDiff] over the service locations still to visit. *)
Fixpoint CustomizeDiff_range (model : CommunicationsGatewayModel.t)
    (rest : list ServiceRegionPropertiesModel.t) : option error :=
  match rest with
  | [] => None
  | sls :: rest =>
      if bool_decide (CommunicationsGatewayModel.E911Type model = E911TypeStandard) then
        if bool_decide (0 < len (ServiceRegionPropertiesModel.EsrpAddresses sls)) then
          Some (Errorf "the esrp_addresses of %s must not be provided for each service_location when e911_type is set to Standard"
                  [ArgString (CommunicationsGatewayModel.Name model)])
        else CustomizeDiff_range model rest
      else
        if bool_decide (len (ServiceRegionPropertiesModel.EsrpAddresses sls) = 0) then
          Some (Errorf "the esrp_addresses of %s must be provided for each service_location when e911_type is set to DirectToEsrp"
                  [ArgString (CommunicationsGatewayModel.Name model)])
        else CustomizeDiff_range model rest
  end.

(** [CustomizeDiff]: it touches neither the remote side nor the resource
    data, so it is a function of the decoded plan. *)
Definition CustomizeDiff (metadata : ResourceMetaData) : option error :=
  match DecodeDiff metadata with
  | Err err => Some (Errorf "DecodeDiff: %+v" [ArgError err])
  | Ok model =>
      CustomizeDiff_range model (elems (CommunicationsGatewayModel.ServiceLocation model))
  end.

(** The resource [Create] builds before the opaque blob is looked at. *)
Definition Create_properties (model : CommunicationsGatewayModel.t) : CommunicationsGateway.t JSON :=
  {| CommunicationsGateway.Location := location_Normalize (CommunicationsGatewayModel.Location model);
     CommunicationsGateway.Properties := Ref {|
       CommunicationsGatewayProperties.ApiBridge := nil_ptr;
       CommunicationsGatewayProperties.AutoGeneratedDomainNameLabelScope :=
         Ref (CommunicationsGatewayModel.AutoGeneratedDomainNameLabelScope model);
       CommunicationsGatewayProperties.Codecs := Slice [CommunicationsGatewayModel.Codecs model];
       CommunicationsGatewayProperties.Connectivity := CommunicationsGatewayModel.Connectivity model;
       CommunicationsGatewayProperties.E911Type := CommunicationsGatewayModel.E911Type model;
       CommunicationsGatewayProperties.EmergencyDialStrings := nil_ptr;
       CommunicationsGatewayProperties.OnPremMcpEnabled := nil_ptr;
       CommunicationsGatewayProperties.Platforms :=
         expandCommunicationsPlatformModel (CommunicationsGatewayModel.Platforms model);
       CommunicationsGatewayProperties.ServiceLocations :=
         expandServiceRegionPropertiesModel (CommunicationsGatewayModel.ServiceLocation model);
       CommunicationsGatewayProperties.TeamsVoicemailPilotNumber := nil_ptr;
     |};
     CommunicationsGateway.Tags := Ref (CommunicationsGatewayModel.Tags model) |}.

(** [properties.Properties.F = v]: the assignment goes through the
    [Properties] pointer and panics when that is nil. *)
Definition assign (f : CommunicationsGatewayProperties.t JSON → CommunicationsGatewayProperties.t JSON)
    (properties : CommunicationsGateway.t JSON) : M (CommunicationsGateway.t JSON) :=
  match CommunicationsGateway.Properties properties with
  | nil_ptr => panic
  | Ref p => mret (CommunicationsGateway.set_Properties (Ref (f p)) properties)
  end.

(** [Create] *)
Definition Create (metadata : ResourceMetaData) : ResourceFunc JSON W :=
  model ← match Decode metadata with
          | Err err => return_ (Some (Errorf "decoding: %+v" [ArgError err]))
          | Ok model => mret model
          end;
  let subscriptionId := Account_SubscriptionId metadata in
  let id := NewCommunicationsGatewayID subscriptionId
              (CommunicationsGatewayModel.ResourceGroupName model)
              (CommunicationsGatewayModel.Name model) in
  '(existing, err) ← client_Get id;
  _ ← match err with
      | Some err =>
          if negb (response_WasNotFound (HttpResponse existing)) then
            return_ (Some (Errorf "checking for presence of existing %s: %+v"
                             [ArgId id; ArgError err]))
          else mret ()
      | None => mret ()
      end;
  _ ← (if negb (response_WasNotFound (HttpResponse existing)) then
         return_ (metadata_ResourceRequiresImport ResourceType id)
       else mret ());
  let properties := Create_properties model in
  apiBridgeValue ← (if negb (bool_decide (CommunicationsGatewayModel.ApiBridge model = "")) then
                      match json_Unmarshal (CommunicationsGatewayModel.ApiBridge model) with
                      | Err err =>
                          return_ (Some (Errorf "unmarshalling value for ApiBridge: %+v"
                                           [ArgError err]))
                      | Ok v => mret v
                      end
                    else mret None);
  properties ← assign (CommunicationsGatewayProperties.set_ApiBridge (Ref apiBridgeValue)) properties;
  properties ← (if negb (is_nil (CommunicationsGatewayModel.EmergencyDialStrings model)) then
                  assign (CommunicationsGatewayProperties.set_EmergencyDialStrings
                            (Ref (CommunicationsGatewayModel.EmergencyDialStrings model)))
                         properties
                else mret properties);
  properties ← assign (CommunicationsGatewayProperties.set_OnPremMcpEnabled
                         (Ref (CommunicationsGatewayModel.OnPremMcpEnabled model))) properties;
  properties ← assign (CommunicationsGatewayProperties.set_TeamsVoicemailPilotNumber
                         (Ref (CommunicationsGatewayModel.MicrosoftTeamsVoicemailPilotNumber model)))
                      properties;
  err ← client_CreateOrUpdateThenPoll id properties;
  _ ← match err with
      | Some err => return_ (Some (Errorf "creating %s: %+v" [ArgId id; ArgError err]))
      | None => mret ()
      end;
  _ ← metadata_SetID id;
  return_ None.

(** [Update] *)
Definition Update (metadata : ResourceMetaData) : ResourceFunc JSON W :=
  rid ← metadata_ResourceData_Id;
  id ← match ParseCommunicationsGatewayID rid with
       | Err err => return_ (Some err)
       | Ok id => mret id
       end;
  model ← match Decode metadata with
          | Err err => return_ (Some (Errorf "decoding: %+v" [ArgError err]))
          | Ok model => mret model
          end;
  '(resp, err) ← client_Get id;
  _ ← match err with
      | Some err => return_ (Some (Errorf "retrieving %s: %+v" [ArgId id; ArgError err]))
      | None => mret ()
      end;
  properties ← match Model resp with
               | nil_ptr => return_ (Some (Errorf "retrieving %s: model was nil" [ArgId id]))
               | Ref properties => mret properties
               end;
  properties ← (if HasChange metadata "codecs" then
                  assign (CommunicationsGatewayProperties.set_Codecs
                            (Slice [CommunicationsGatewayModel.Codecs model])) properties
                else mret properties);
  properties ← (if HasChange metadata "e911_type" then
                  assign (CommunicationsGatewayProperties.set_E911Type
                            (CommunicationsGatewayModel.E911Type model)) properties
                else mret properties);
  properties ← (if HasChange metadata "platforms" then
                  assign (CommunicationsGatewayProperties.set_Platforms
                            (expandCommunicationsPlatformModel
                               (CommunicationsGatewayModel.Platforms model))) properties
                else mret properties);
  properties ← (if HasChange metadata "service_location" then
                  assign (CommunicationsGatewayProperties.set_ServiceLocations
                            (expandServiceRegionPropertiesModel
                               (CommunicationsGatewayModel.ServiceLocation model))) properties
                else mret properties);
  properties ← (if HasChange metadata "api_bridge" then
                  if negb (bool_decide (CommunicationsGatewayModel.ApiBridge model = "")) then
                    match json_Unmarshal (CommunicationsGatewayModel.ApiBridge model) with
                    | Err err =>
                        return_ (Some (Errorf "unmarshalling json value for ApiBridge: %+v"
                                         [ArgError err]))
                    | Ok apiBridgeValue =>
                        assign (CommunicationsGatewayProperties.set_ApiBridge (Ref apiBridgeValue))
                               properties
                    end
                  else assign (CommunicationsGatewayProperties.set_ApiBridge nil_ptr) properties
                else mret properties);
  properties ← (if HasChange metadata "emergency_dial_strings" then
                  assign (CommunicationsGatewayProperties.set_EmergencyDialStrings
                            (Ref (CommunicationsGatewayModel.EmergencyDialStrings model)))
                         properties
                else mret properties);
  properties ← (if HasChange metadata "on_prem_mcp_enabled" then
                  assign (CommunicationsGatewayProperties.set_OnPremMcpEnabled
                            (Ref (CommunicationsGatewayModel.OnPremMcpEnabled model))) properties
                else mret properties);
  let properties := if HasChange metadata "tags" then
                      CommunicationsGateway.set_Tags
                        (Ref (CommunicationsGatewayModel.Tags model)) properties
                    else properties in
  properties ← (if HasChange metadata "microsoft_teams_voicemail_pilot_number" then
                  assign (CommunicationsGatewayProperties.set_TeamsVoicemailPilotNumber
                            (Ref (CommunicationsGatewayModel.MicrosoftTeamsVoicemailPilotNumber model)))
                         properties
                else mret properties);
  err ← client_CreateOrUpdateThenPoll id properties;
  match err with
  | Some err => return_ (Some (Errorf "updating %s: %+v" [ArgId id; ArgError err]))
  | None => return_ None
  end.

(** The state [Read] assembles from the identity and the fetched resource;
    the only failure is that of re-serialising the opaque blob. *)
Definition Read_state (id : CommunicationsGatewayId) (model : CommunicationsGateway.t JSON) :
    result CommunicationsGatewayModel.t :=
  let tags := match CommunicationsGateway.Tags model with
              | nil_ptr => nil_map
              | Ref tags => tags
              end in
  match CommunicationsGateway.Properties model with
  | nil_ptr =>
      Ok {| CommunicationsGatewayModel.Name := CommunicationsGatewayName id;
            CommunicationsGatewayModel.ResourceGroupName := ResourceGroupName id;
            CommunicationsGatewayModel.ApiBridge := "";
            CommunicationsGatewayModel.AutoGeneratedDomainNameLabelScope := "";
            CommunicationsGatewayModel.Codecs := "";
            CommunicationsGatewayModel.Connectivity := "";
            CommunicationsGatewayModel.E911Type := "";
            CommunicationsGatewayModel.EmergencyDialStrings := nil_slice;
            CommunicationsGatewayModel.Location :=
              location_Normalize (CommunicationsGateway.Location model);
            CommunicationsGatewayModel.OnPremMcpEnabled := false;
            CommunicationsGatewayModel.Platforms := nil_slice;
            CommunicationsGatewayModel.ServiceLocation := nil_slice;
            CommunicationsGatewayModel.Tags := tags;
            CommunicationsGatewayModel.MicrosoftTeamsVoicemailPilotNumber := "" |}
  | Ref properties =>
      let codecsValue :=
        match elems (CommunicationsGatewayProperties.Codecs properties) with
        | c :: _ => c
        | [] => ""
        end in
      let apiBridge :=
        match CommunicationsGatewayProperties.ApiBridge properties with
        | Ref (Some v) =>
            match json_Marshal v with
            | Err err => Err (Errorf "marshalling value for ApiBridge: %+v" [ArgError err])
            | Ok apiBridgeValue => Ok apiBridgeValue
            end
        | _ => Ok ""
        end in
      match apiBridge with
      | Err err => Err err
      | Ok apiBridge =>
          Ok {| CommunicationsGatewayModel.Name := CommunicationsGatewayName id;
                CommunicationsGatewayModel.ResourceGroupName := ResourceGroupName id;
                CommunicationsGatewayModel.ApiBridge := apiBridge;
                CommunicationsGatewayModel.AutoGeneratedDomainNameLabelScope :=
                  match CommunicationsGatewayProperties.AutoGeneratedDomainNameLabelScope properties with
                  | nil_ptr => ""
                  | Ref v => v
                  end;
                CommunicationsGatewayModel.Codecs := codecsValue;
                CommunicationsGatewayModel.Connectivity :=
                  CommunicationsGatewayProperties.Connectivity properties;
                CommunicationsGatewayModel.E911Type :=
                  CommunicationsGatewayProperties.E911Type properties;
                CommunicationsGatewayModel.EmergencyDialStrings :=
                  match CommunicationsGatewayProperties.EmergencyDialStrings properties with
                  | nil_ptr => nil_slice
                  | Ref v => v
                  end;
                CommunicationsGatewayModel.Location :=
                  location_Normalize (CommunicationsGateway.Location model);
                CommunicationsGatewayModel.OnPremMcpEnabled :=
                  match CommunicationsGatewayProperties.OnPremMcpEnabled properties with
                  | nil_ptr => false
                  | Ref v => v
                  end;
                CommunicationsGatewayModel.Platforms :=
                  flattenCommunicationsPlatformModel
                    (CommunicationsGatewayProperties.Platforms properties);
                CommunicationsGatewayModel.ServiceLocation :=
                  flattenServiceRegionPropertiesModel
                    (Ref (CommunicationsGatewayProperties.ServiceLocations properties));
                CommunicationsGatewayModel.Tags := tags;
                CommunicationsGatewayModel.MicrosoftTeamsVoicemailPilotNumber :=
                  match CommunicationsGatewayProperties.TeamsVoicemailPilotNumber properties with
                  | nil_ptr => ""
                  | Ref v => v
                  end |}
      end
  end.

(** [Read] *)
Definition Read (metadata : ResourceMetaData) : ResourceFunc JSON W :=
  rid ← metadata_ResourceData_Id;
  id ← match ParseCommunicationsGatewayID rid with
       | Err err => return_ (Some err)
       | Ok id => mret id
       end;
  '(resp, err) ← client_Get id;
  _ ← match err with
      | Some err =>
          if response_WasNotFound (HttpResponse resp) then
            gone ← metadata_MarkAsGone id;
            return_ gone
          else return_ (Some (Errorf "retrieving %s: %+v" [ArgId id; ArgError err]))
      | None => mret ()
      end;
  model ← match Model resp with
          | nil_ptr => return_ (Some (Errorf "retrieving %s: model was nil" [ArgId id]))
          | Ref model => mret model
          end;
  state ← match Read_state id model with
          | Err err => return_ (Some err)
          | Ok state => mret state
          end;
  encoded ← metadata_Encode state;
  return_ encoded.

(** [Delete] *)
Definition Delete (metadata : ResourceMetaData) : ResourceFunc JSON W :=
  rid ← metadata_ResourceData_Id;
  id ← match ParseCommunicationsGatewayID rid with
       | Err err => return_ (Some err)
       | Ok id => mret id
       end;
  err ← client_DeleteThenPoll id;
  match err with
  | Some err => return_ (Some (Errorf "deleting %s: %+v" [ArgId id; ArgError err]))
  | None => return_ None
  end.

(** A handler started by the host: nothing has been called yet and nothing
    has been encoded. *)
Definition run {A} (f : M A) (w : W) (rid : string) : Outcome A * St JSON W :=
  f (mkSt w [] rid None).

(** ** Expand and Flatten

    [Expand] is the model-to-remote translation as a function of the model:
    the resource [Create] hands to the remote client (lemma
    [Create_sends_Expand] below), failing where [Create] fails on the opaque
    blob.  [Flatten] is the way back, the state [Read] assembles. *)
Definition Expand (model : CommunicationsGatewayModel.t) : result (CommunicationsGateway.t JSON) :=
  let apiBridgeValue :=
    if negb (bool_decide (CommunicationsGatewayModel.ApiBridge model = "")) then
      match json_Unmarshal (CommunicationsGatewayModel.ApiBridge model) with
      | Err err => Err (Errorf "unmarshalling value for ApiBridge: %+v" [ArgError err])
      | Ok v => Ok v
      end
    else Ok None in
  match apiBridgeValue with
  | Err err => Err err
  | Ok apiBridgeValue =>
      Ok {| CommunicationsGateway.Location :=
              location_Normalize (CommunicationsGatewayModel.Location model);
            CommunicationsGateway.Properties := Ref {|
              CommunicationsGatewayProperties.ApiBridge := Ref apiBridgeValue;
              CommunicationsGatewayProperties.AutoGeneratedDomainNameLabelScope :=
                Ref (CommunicationsGatewayModel.AutoGeneratedDomainNameLabelScope model);
              CommunicationsGatewayProperties.Codecs :=
                Slice [CommunicationsGatewayModel.Codecs model];
              CommunicationsGatewayProperties.Connectivity :=
                CommunicationsGatewayModel.Connectivity model;
              CommunicationsGatewayProperties.E911Type :=
                CommunicationsGatewayModel.E911Type model;
              CommunicationsGatewayProperties.EmergencyDialStrings :=
                if negb (is_nil (CommunicationsGatewayModel.EmergencyDialStrings model))
                then Ref (CommunicationsGatewayModel.EmergencyDialStrings model)
                else nil_ptr;
              CommunicationsGatewayProperties.OnPremMcpEnabled :=
                Ref (CommunicationsGatewayModel.OnPremMcpEnabled model);
              CommunicationsGatewayProperties.Platforms :=
                expandCommunicationsPlatformModel (CommunicationsGatewayModel.Platforms model);
              CommunicationsGatewayProperties.ServiceLocations :=
                expandServiceRegionPropertiesModel
                  (CommunicationsGatewayModel.ServiceLocation model);
              CommunicationsGatewayProperties.TeamsVoicemailPilotNumber :=
                Ref (CommunicationsGatewayModel.MicrosoftTeamsVoicemailPilotNumber model);
            |};
            CommunicationsGateway.Tags := Ref (CommunicationsGatewayModel.Tags model) |}
  end.

Definition Flatten (id : CommunicationsGatewayId) (model : CommunicationsGateway.t JSON) :
    result CommunicationsGatewayModel.t :=
  Read_state id model.

(** What the round trip makes of the opaque blob: the empty string stays
    empty, JSON null comes back as the empty string, and any other value comes
    back as [encoding/json] serialises it. *)
Definition reserialized (apiBridge : string) : result string :=
  if bool_decide (apiBridge = "") then Ok ""
  else match json_Unmarshal apiBridge with
       | Err err => Err err
       | Ok None => Ok ""
       | Ok (Some v) => json_Marshal v
       end.

Definition with_ApiBridge (apiBridge : string) (model : CommunicationsGatewayModel.t) :
    CommunicationsGatewayModel.t :=
  {| CommunicationsGatewayModel.Name := CommunicationsGatewayModel.Name model;
     CommunicationsGatewayModel.ResourceGroupName :=
       CommunicationsGatewayModel.ResourceGroupName model;
     CommunicationsGatewayModel.ApiBridge := apiBridge;
     CommunicationsGatewayModel.AutoGeneratedDomainNameLabelScope :=
       CommunicationsGatewayModel.AutoGeneratedDomainNameLabelScope model;
     CommunicationsGatewayModel.Codecs := CommunicationsGatewayModel.Codecs model;
     CommunicationsGatewayModel.Connectivity := CommunicationsGatewayModel.Connectivity model;
     CommunicationsGatewayModel.E911Type := CommunicationsGatewayModel.E911Type model;
     CommunicationsGatewayModel.EmergencyDialStrings :=
       CommunicationsGatewayModel.EmergencyDialStrings model;
     CommunicationsGatewayModel.Location := CommunicationsGatewayModel.Location model;
     CommunicationsGatewayModel.OnPremMcpEnabled :=
       CommunicationsGatewayModel.OnPremMcpEnabled model;
     CommunicationsGatewayModel.Platforms := CommunicationsGatewayModel.Platforms model;
     CommunicationsGatewayModel.ServiceLocation :=
       CommunicationsGatewayModel.ServiceLocation model;
     CommunicationsGatewayModel.Tags := CommunicationsGatewayModel.Tags model;
     CommunicationsGatewayModel.MicrosoftTeamsVoicemailPilotNumber :=
       CommunicationsGatewayModel.MicrosoftTeamsVoicemailPilotNumber model |}.

(** ** The partial update as a function

    What [Update] makes of the fetched properties (lemma [Update_sends]
    below): [Update_apiBridge] is the value it gives the opaque blob when
    that field is marked changed, and [Update_changes] overwrites the
    sub-fields that are marked changed and leaves the others as fetched. *)
Definition Update_apiBridge (model : CommunicationsGatewayModel.t) : result (ptr (option JSON)) :=
  if negb (bool_decide (CommunicationsGatewayModel.ApiBridge model = "")) then
    match json_Unmarshal (CommunicationsGatewayModel.ApiBridge model) with
    | Err err => Err (Errorf "unmarshalling json value for ApiBridge: %+v" [ArgError err])
    | Ok apiBridgeValue => Ok (Ref apiBridgeValue)
    end
  else Ok nil_ptr.

Definition when_changed {T} (changed : bool) (overwrite : T → T) (p : T) : T :=
  if changed then overwrite p else p.

Definition Update_changes (metadata : ResourceMetaData) (model : CommunicationsGatewayModel.t)
    (apiBridge : ptr (option JSON)) (p : CommunicationsGatewayProperties.t JSON) :
    CommunicationsGatewayProperties.t JSON :=
  let p := when_changed (HasChange metadata "codecs")
             (CommunicationsGatewayProperties.set_Codecs
                (Slice [CommunicationsGatewayModel.Codecs model])) p in
  let p := when_changed (HasChange metadata "e911_type")
             (CommunicationsGatewayProperties.set_E911Type
                (CommunicationsGatewayModel.E911Type model)) p in
  let p := when_changed (HasChange metadata "platforms")
             (CommunicationsGatewayProperties.set_Platforms
                (expandCommunicationsPlatformModel
                   (CommunicationsGatewayModel.Platforms model))) p in
  let p := when_changed (HasChange metadata "service_location")
             (CommunicationsGatewayProperties.set_ServiceLocations
                (expandServiceRegionPropertiesModel
                   (CommunicationsGatewayModel.ServiceLocation model))) p in
  let p := when_changed (HasChange metadata "api_bridge")
             (CommunicationsGatewayProperties.set_ApiBridge apiBridge) p in
  let p := when_changed (HasChange metadata "emergency_dial_strings")
             (CommunicationsGatewayProperties.set_EmergencyDialStrings
                (Ref (CommunicationsGatewayModel.EmergencyDialStrings model))) p in
  let p := when_changed (HasChange metadata "on_prem_mcp_enabled")
             (CommunicationsGatewayProperties.set_OnPremMcpEnabled
                (Ref (CommunicationsGatewayModel.OnPremMcpEnabled model))) p in
  when_changed (HasChange metadata "microsoft_teams_voicemail_pilot_number")
    (CommunicationsGatewayProperties.set_TeamsVoicemailPilotNumber
       (Ref (CommunicationsGatewayModel.MicrosoftTeamsVoicemailPilotNumber model))) p.

Definition Update_resource (metadata : ResourceMetaData) (model : CommunicationsGatewayModel.t)
    (apiBridge : ptr (option JSON)) (fetched : CommunicationsGateway.t JSON)
    (p : CommunicationsGatewayProperties.t JSON) : CommunicationsGateway.t JSON :=
  {| CommunicationsGateway.Location := CommunicationsGateway.Location fetched;
     CommunicationsGateway.Properties := Ref (Update_changes metadata model apiBridge p);
     CommunicationsGateway.Tags :=
       if HasChange metadata "tags" then Ref (CommunicationsGatewayModel.Tags model)
       else CommunicationsGateway.Tags fetched |}.

End Handlers.

(** ** Vocabulary of the properties *)

(** The ESRP rule as the specification words it: a service location violates
    it when the mode is Standard and ESRP addresses are given, or the mode is
    DirectToEsrp and none are. *)
Definition esrp_rule_violated_as_specified (model : CommunicationsGatewayModel.t)
    (sls : ServiceRegionPropertiesModel.t) : Prop :=
  (CommunicationsGatewayModel.E911Type model = communicationsgateways.E911TypeStandard ∧
   0 < len (ServiceRegionPropertiesModel.EsrpAddresses sls)) ∨
  (CommunicationsGatewayModel.E911Type model = communicationsgateways.E911TypeDirectToEsrp ∧
   len (ServiceRegionPropertiesModel.EsrpAddresses sls) = 0).

(** The ESRP rule as [CustomizeDiff] tests it: every mode other than
    Standard is held to the DirectToEsrp requirement. *)
Definition esrp_rule_violated (model : CommunicationsGatewayModel.t)
    (sls : ServiceRegionPropertiesModel.t) : Prop :=
  (CommunicationsGatewayModel.E911Type model = communicationsgateways.E911TypeStandard ∧
   0 < len (ServiceRegionPropertiesModel.EsrpAddresses sls)) ∨
  (CommunicationsGatewayModel.E911Type model ≠ communicationsgateways.E911TypeStandard ∧
   len (ServiceRegionPropertiesModel.EsrpAddresses sls) = 0).

(** Every address list of every service location is non-nil and non-empty. *)
Definition fully_populated (model : CommunicationsGatewayModel.t) : Prop :=
  Forall (λ sls,
    0 < len (ServiceRegionPropertiesModel.OperatorAddresses sls) ∧
    0 < len (ServiceRegionPropertiesModel.AllowedMediaSourceAddressPrefixes sls) ∧
    0 < len (ServiceRegionPropertiesModel.AllowedSignalingSourceAddressPrefixes sls) ∧
    0 < len (ServiceRegionPropertiesModel.EsrpAddresses sls))
    (elems (CommunicationsGatewayModel.ServiceLocation model)).

(** The location strings of a model are fixed by the normaliser. *)
Definition normalized `{External JSON} (model : CommunicationsGatewayModel.t) : Prop :=
  location_Normalize (CommunicationsGatewayModel.Location model) =
    CommunicationsGatewayModel.Location model ∧
  Forall (λ sls,
    location_Normalize (ServiceRegionPropertiesModel.Location sls) =
      ServiceRegionPropertiesModel.Location sls)
    (elems (CommunicationsGatewayModel.ServiceLocation model)).

(** A run issued no call that changes the remote side and left the remote
    state as it found it. *)
Definition no_remote_mutation {JSON W A} (w : W) (r : Outcome A * St JSON W) : Prop :=
  forallb (λ c, negb (mutating c)) (calls r.2) = true ∧ remote r.2 = w.

(** ** An in-memory double of the collaborators

    Concrete collaborators on which the handlers can be run: a remote store
    keyed by the rendered identity, a decoder for the JSON literals, and the
    lower-casing, space-stripping location normaliser. *)

Module Fake.

Definition JSON := bool.

Definition to_lower (c : Ascii.ascii) : Ascii.ascii :=
  let n := Ascii.nat_of_ascii c in
  if bool_decide (65 ≤ n ≤ 90)%nat then Ascii.ascii_of_nat (n + 32) else c.

Fixpoint Normalize (input : string) : string :=
  match input with
  | EmptyString => EmptyString
  | String c rest =>
      if bool_decide (c = " "%char) then Normalize rest
      else String (to_lower c) (Normalize rest)
  end.

Definition WasNotFound (resp : ptr http.Response) : bool :=
  match resp with
  | nil_ptr => false
  | Ref r => bool_decide (http.StatusCode r = 404%Z)
  end.

Definition Unmarshal (data : string) : result (option JSON) :=
  if bool_decide (data = "null") then Ok None
  else if bool_decide (data = "true") then Ok (Some true)
  else if bool_decide (data = "false") then Ok (Some false)
  else Err (Failure "invalid character").

Definition Marshal (v : JSON) : result string :=
  Ok (if v then "true" else "false").

Definition render (id : CommunicationsGatewayId) : string :=
  "/subscriptions/" +:+ SubscriptionId id +:+
  "/resourceGroups/" +:+ ResourceGroupName id +:+
  "/providers/Microsoft.VoiceServices/communicationsGateways/" +:+
  CommunicationsGatewayName id.

(** The segments of a path between slashes. *)
Fixpoint segments (cur : string) (input : string) : list string :=
  match input with
  | EmptyString => [String.rev cur]
  | String c rest =>
      if bool_decide (c = "/"%char) then String.rev cur :: segments EmptyString rest
      else segments (String c cur) rest
  end.

Definition Parse (input : string) : result CommunicationsGatewayId :=
  match segments EmptyString input with
  | [e; k1; sub; k2; rg; k3; ns; k4; name] =>
      if bool_decide (e = "" ∧ k1 = "subscriptions" ∧ k2 = "resourceGroups" ∧
                      k3 = "providers" ∧ ns = "Microsoft.VoiceServices" ∧
                      k4 = "communicationsGateways" ∧ sub ≠ "" ∧ rg ≠ "" ∧ name ≠ "")
      then Ok (NewCommunicationsGatewayID sub rg name)
      else Err (Failure "parsing the CommunicationsGateway ID")
  | _ => Err (Failure "parsing the CommunicationsGateway ID")
  end.

Global Instance external : External JSON := {|
  location_Normalize := Normalize;
  response_WasNotFound := WasNotFound;
  json_Unmarshal := Unmarshal;
  json_Marshal := Marshal;
  ParseCommunicationsGatewayID := Parse;
  ID := render;
|}.

(** The remote store: the resources that exist, by rendered identity. *)
Abbreviation Store := (gmap string (communicationsgateways.CommunicationsGateway.t JSON)).

Definition client : CommunicationsGatewaysClient JSON Store := {|
  Get := λ id w,
    match w !! render id with
    | Some r => ({| HttpResponse := Ref (http.mk 200); Model := Ref r |}, None)
    | None => ({| HttpResponse := Ref (http.mk 404); Model := nil_ptr |},
               Some (Failure "ResourceNotFound"))
    end;
  CreateOrUpdateThenPoll := λ id r w, (None, <[render id := r]> w);
  DeleteThenPoll := λ id w, (None, delete (render id) w);
|}.

(** A gateway in Standard mode with one service location and no ESRP
    addresses. *)
Definition eastus : ServiceRegionPropertiesModel.t := {|
  ServiceRegionPropertiesModel.Location := "eastus";
  ServiceRegionPropertiesModel.OperatorAddresses := Slice ["10.0.0.1"];
  ServiceRegionPropertiesModel.AllowedMediaSourceAddressPrefixes := nil_slice;
  ServiceRegionPropertiesModel.AllowedSignalingSourceAddressPrefixes := nil_slice;
  ServiceRegionPropertiesModel.EsrpAddresses := Slice [];
|}.

Definition abc : CommunicationsGatewayModel.t := {|
  CommunicationsGatewayModel.Name := "abc";
  CommunicationsGatewayModel.ResourceGroupName := "rg";
  CommunicationsGatewayModel.ApiBridge := "";
  CommunicationsGatewayModel.AutoGeneratedDomainNameLabelScope := "TenantReuse";
  CommunicationsGatewayModel.Codecs := "PCMA";
  CommunicationsGatewayModel.Connectivity := "PublicAddress";
  CommunicationsGatewayModel.E911Type := "Standard";
  CommunicationsGatewayModel.EmergencyDialStrings := nil_slice;
  CommunicationsGatewayModel.Location := "eastus";
  CommunicationsGatewayModel.OnPremMcpEnabled := false;
  CommunicationsGatewayModel.Platforms := Slice ["OperatorConnect"];
  CommunicationsGatewayModel.ServiceLocation := Slice [eastus];
  CommunicationsGatewayModel.Tags := Map ∅;
  CommunicationsGatewayModel.MicrosoftTeamsVoicemailPilotNumber := "";
|}.

Definition abc_id : CommunicationsGatewayId := NewCommunicationsGatewayID "sub" "rg" "abc".

(** The host's view of a configuration [model] of which the fields [changed]
    differ from the prior state. *)
Definition metadata (model : CommunicationsGatewayModel.t) (changed : list string) :
    ResourceMetaData := {|
  Account_SubscriptionId := "sub";
  Decode := Ok model;
  DecodeDiff := Ok model;
  HasChange := λ key, bool_decide (key ∈ changed);
|}.


(** The remote resource of [abc], and a store that holds it. *)
Definition abc_remote : communicationsgateways.CommunicationsGateway.t JSON :=
  match Expand abc with
  | Ok resource => resource
  | Err _ => communicationsgateways.CommunicationsGateway.mk "" nil_ptr nil_ptr
  end.

Definition store_abc : Store := {[ render abc_id := abc_remote ]}.

Definition abc_found : GetOperationResponse JSON :=
  {| HttpResponse := Ref (http.mk 200); Model := Ref abc_remote |}.

Definition abc_missing : GetOperationResponse JSON :=
  {| HttpResponse := Ref (http.mk 404); Model := nil_ptr |}.

(** [abc] with another codec and with another opaque blob. *)
Definition with_Codecs (codecs : string) (model : CommunicationsGatewayModel.t) :
    CommunicationsGatewayModel.t :=
  {| CommunicationsGatewayModel.Name := CommunicationsGatewayModel.Name model;
     CommunicationsGatewayModel.ResourceGroupName :=
       CommunicationsGatewayModel.ResourceGroupName model;
     CommunicationsGatewayModel.ApiBridge := CommunicationsGatewayModel.ApiBridge model;
     CommunicationsGatewayModel.AutoGeneratedDomainNameLabelScope :=
       CommunicationsGatewayModel.AutoGeneratedDomainNameLabelScope model;
     CommunicationsGatewayModel.Codecs := codecs;
     CommunicationsGatewayModel.Connectivity := CommunicationsGatewayModel.Connectivity model;
     CommunicationsGatewayModel.E911Type := CommunicationsGatewayModel.E911Type model;
     CommunicationsGatewayModel.EmergencyDialStrings :=
       CommunicationsGatewayModel.EmergencyDialStrings model;
     CommunicationsGatewayModel.Location := CommunicationsGatewayModel.Location model;
     CommunicationsGatewayModel.OnPremMcpEnabled :=
       CommunicationsGatewayModel.OnPremMcpEnabled model;
     CommunicationsGatewayModel.Platforms := CommunicationsGatewayModel.Platforms model;
     CommunicationsGatewayModel.ServiceLocation :=
       CommunicationsGatewayModel.ServiceLocation model;
     CommunicationsGatewayModel.Tags := CommunicationsGatewayModel.Tags model;
     CommunicationsGatewayModel.MicrosoftTeamsVoicemailPilotNumber :=
       CommunicationsGatewayModel.MicrosoftTeamsVoicemailPilotNumber model |}.

Definition abc_pcmu : CommunicationsGatewayModel.t := with_Codecs "PCMU" abc.

Definition abc_pcmu_remote : communicationsgateways.CommunicationsGateway.t JSON :=
  match Expand abc_pcmu with
  | Ok resource => resource
  | Err _ => communicationsgateways.CommunicationsGateway.mk "" nil_ptr nil_ptr
  end.


(** A gateway in DirectToEsrp mode whose single service location has every
    address list populated, and whose platforms list is empty but not nil. *)
Definition westus : ServiceRegionPropertiesModel.t := {|
  ServiceRegionPropertiesModel.Location := "westus";
  ServiceRegionPropertiesModel.OperatorAddresses := Slice ["10.0.0.1"];
  ServiceRegionPropertiesModel.AllowedMediaSourceAddressPrefixes := Slice ["10.1.0.0/24"];
  ServiceRegionPropertiesModel.AllowedSignalingSourceAddressPrefixes := Slice ["10.2.0.0/24"];
  ServiceRegionPropertiesModel.EsrpAddresses := Slice ["198.51.100.3"];
|}.

Definition direct : CommunicationsGatewayModel.t := {|
  CommunicationsGatewayModel.Name := "direct";
  CommunicationsGatewayModel.ResourceGroupName := "rg";
  CommunicationsGatewayModel.ApiBridge := "";
  CommunicationsGatewayModel.AutoGeneratedDomainNameLabelScope := "TenantReuse";
  CommunicationsGatewayModel.Codecs := "PCMA";
  CommunicationsGatewayModel.Connectivity := "PublicAddress";
  CommunicationsGatewayModel.E911Type := "DirectToEsrp";
  CommunicationsGatewayModel.EmergencyDialStrings := Slice ["911"];
  CommunicationsGatewayModel.Location := "westus";
  CommunicationsGatewayModel.OnPremMcpEnabled := false;
  CommunicationsGatewayModel.Platforms := Slice [];
  CommunicationsGatewayModel.ServiceLocation := Slice [westus];
  CommunicationsGatewayModel.Tags := Map ∅;
  CommunicationsGatewayModel.MicrosoftTeamsVoicemailPilotNumber := "";
|}.

Definition direct_id : CommunicationsGatewayId := NewCommunicationsGatewayID "sub" "rg" "direct".

End Fake.

(** ** Vocabulary of further properties *)

(** The keys [Update] asks [HasChange] about, in the order it asks. *)
Definition Update_keys : list string :=
  ["codecs"; "e911_type"; "platforms"; "service_location"; "api_bridge";
   "emergency_dial_strings"; "on_prem_mcp_enabled"; "tags";
   "microsoft_teams_voicemail_pilot_number"].

(** Those of them that [Update] assigns through the [Properties] pointer of
    the fetched resource; "tags" is assigned on the resource itself. *)
Definition Update_Properties_keys : list string :=
  ["codecs"; "e911_type"; "platforms"; "service_location"; "api_bridge";
   "emergency_dial_strings"; "on_prem_mcp_enabled";
   "microsoft_teams_voicemail_pilot_number"].

(** The values the schema of [Arguments] admits for "e911_type": the list
    handed to [validation.StringInSlice], matched with case. *)
Definition e911_type_values : list string :=
  [communicationsgateways.E911TypeDirectToEsrp; communicationsgateways.E911TypeStandard].

(** The error a handler returns for a failed remote mutation, if any. *)
Definition wrapped (format : string) (id : CommunicationsGatewayId) (failed : option error) :
    option error :=
  match failed with
  | Some e => Some (Errorf format [ArgId id; ArgError e])
  | None => None
  end.

(** More fixtures for the in-memory double: a remote resource that carries
    no properties, and a store that holds it under the identity of [abc]. *)
Module Samples.

Definition bare_remote : communicationsgateways.CommunicationsGateway.t Fake.JSON :=
  communicationsgateways.CommunicationsGateway.mk "eastus" nil_ptr nil_ptr.

Definition store_bare : Fake.Store := {[ Fake.render Fake.abc_id := bare_remote ]}.

Definition bare_found : GetOperationResponse Fake.JSON :=
  {| HttpResponse := Ref (http.mk 200); Model := Ref bare_remote |}.

(** [abc] with its service locations listed twice over, in either order. *)
Definition with_ServiceLocation (locations : slice ServiceRegionPropertiesModel.t)
    (model : CommunicationsGatewayModel.t) : CommunicationsGatewayModel.t :=
  {| CommunicationsGatewayModel.Name := CommunicationsGatewayModel.Name model;
     CommunicationsGatewayModel.ResourceGroupName :=
       CommunicationsGatewayModel.ResourceGroupName model;
     CommunicationsGatewayModel.ApiBridge := CommunicationsGatewayModel.ApiBridge model;
     CommunicationsGatewayModel.AutoGeneratedDomainNameLabelScope :=
       CommunicationsGatewayModel.AutoGeneratedDomainNameLabelScope model;
     CommunicationsGatewayModel.Codecs := CommunicationsGatewayModel.Codecs model;
     CommunicationsGatewayModel.Connectivity := CommunicationsGatewayModel.Connectivity model;
     CommunicationsGatewayModel.E911Type := CommunicationsGatewayModel.E911Type model;
     CommunicationsGatewayModel.EmergencyDialStrings :=
       CommunicationsGatewayModel.EmergencyDialStrings model;
     CommunicationsGatewayModel.Location := CommunicationsGatewayModel.Location model;
     CommunicationsGatewayModel.OnPremMcpEnabled :=
       CommunicationsGatewayModel.OnPremMcpEnabled model;
     CommunicationsGatewayModel.Platforms := CommunicationsGatewayModel.Platforms model;
     CommunicationsGatewayModel.ServiceLocation := locations;
     CommunicationsGatewayModel.Tags := CommunicationsGatewayModel.Tags model;
     CommunicationsGatewayModel.MicrosoftTeamsVoicemailPilotNumber :=
       CommunicationsGatewayModel.MicrosoftTeamsVoicemailPilotNumber model |}.

(** What [Update] sends for [abc] with only its emergency dial strings
    marked changed. *)
Definition abc_strings_remote : communicationsgateways.CommunicationsGateway.t Fake.JSON :=
  match calls (run (Update Fake.client (Fake.metadata Fake.abc ["emergency_dial_strings"]))
                 Fake.store_abc (Fake.render Fake.abc_id)).2 with
  | [_; CallCreateOrUpdate _ resource] => resource
  | _ => bare_remote
  end.

Definition east_west : CommunicationsGatewayModel.t :=
  with_ServiceLocation (Slice [Fake.eastus; Fake.westus]) Fake.abc.

Definition west_east : CommunicationsGatewayModel.t :=
  with_ServiceLocation (Slice [Fake.westus; Fake.eastus]) Fake.abc.

End Samples.

(** * Properties *)

Import communicationsgateways.

(** ** Loops that append *)

Section Range.
Context {A B : Type} (f : A → B).

Lemma fold_left_append (l : list A) (acc : slice B) :
  fold_left (λ out v, append out (f v)) l acc =
  match l with
  | [] => acc
  | _ :: _ => Slice (elems acc ++ (f <$> l))
  end.
Proof.
  revert acc. induction l as [|x l IH]; intros acc; [done|].
  cbn [fold_left]. rewrite IH. destruct l as [|y l]; [done|].
  unfold append. cbn [elems]. by rewrite <- app_assoc.
Qed.

Lemma range_append_make (s : slice A) :
  range s (λ out v, append out (f v)) make = Slice (f <$> elems s).
Proof.
  unfold range, make. rewrite fold_left_append. by destruct (elems s).
Qed.

Lemma range_append_nil (s : slice A) :
  range s (λ out v, append out (f v)) nil_slice =
  match elems s with
  | [] => nil_slice
  | _ :: _ => Slice (f <$> elems s)
  end.
Proof.
  unfold range. rewrite fold_left_append. by destruct (elems s).
Qed.

End Range.

Lemma len_0_elems {A} (s : slice A) : len s = 0 ↔ elems s = [].
Proof. unfold len. by destruct (elems s). Qed.

(** ** The translators *)

Lemma expandServiceRegionPropertiesModel_elems `{External JSON}
    (inputList : slice ServiceRegionPropertiesModel.t) :
  expandServiceRegionPropertiesModel inputList =
  Slice ((λ v, ServiceRegionProperties.mk
                 (location_Normalize (ServiceRegionPropertiesModel.Location v))
                 (PrimaryRegionProperties.mk
                    (utils.StringSlice (ServiceRegionPropertiesModel.AllowedMediaSourceAddressPrefixes v))
                    (utils.StringSlice (ServiceRegionPropertiesModel.AllowedSignalingSourceAddressPrefixes v))
                    (utils.StringSlice (ServiceRegionPropertiesModel.EsrpAddresses v))
                    (ServiceRegionPropertiesModel.OperatorAddresses v)))
         <$> elems inputList).
Proof. unfold expandServiceRegionPropertiesModel. by rewrite range_append_make. Qed.

Lemma flattenServiceRegionPropertiesModel_elems `{External JSON}
    (inputList : slice ServiceRegionProperties.t) :
  flattenServiceRegionPropertiesModel (Ref inputList) =
  Slice (flattenServiceRegionProperties <$> elems inputList).
Proof. unfold flattenServiceRegionPropertiesModel. by rewrite range_append_make. Qed.

Lemma expandCommunicationsPlatformModel_elems (input : slice string) :
  expandCommunicationsPlatformModel input =
  match elems input with
  | [] => nil_slice
  | _ :: _ => Slice ((λ v, v : CommunicationsPlatform) <$> elems input)
  end.
Proof.
  unfold expandCommunicationsPlatformModel. case_bool_decide as Hlen.
  - apply len_0_elems in Hlen. by rewrite Hlen.
  - by rewrite range_append_nil.
Qed.

Lemma flattenCommunicationsPlatformModel_elems (input : slice CommunicationsPlatform) :
  flattenCommunicationsPlatformModel input =
  match elems input with
  | [] => nil_slice
  | _ :: _ => Slice ((λ v, v : string) <$> elems input)
  end.
Proof.
  unfold flattenCommunicationsPlatformModel. case_bool_decide as Hlen.
  - apply len_0_elems in Hlen. by rewrite Hlen.
  - rewrite range_append_make. destruct (elems input) eqn:E; [|done].
    by apply len_0_elems in E.
Qed.

(** C6: [expandServiceRegionPropertiesModel] translates the service locations
    entry by entry, and in each entry the media-source, signaling-source and
    ESRP lists independently: a nil slice becomes a nil pointer and a non-nil
    slice, the empty one included, becomes a pointer to that same slice; the
    operator addresses are handed over as they are, with no pointer around
    them. *)
Theorem expandServiceRegionPropertiesModel_address_lists `{External JSON}
    (inputList : slice ServiceRegionPropertiesModel.t) :
  let wrap (input : slice string) : ptr (slice string) :=
    match input with
    | nil_slice => nil_ptr
    | Slice l => Ref (Slice l)
    end in
  expandServiceRegionPropertiesModel inputList =
  Slice ((λ v, {|
    ServiceRegionProperties.Name :=
      location_Normalize (ServiceRegionPropertiesModel.Location v);
    ServiceRegionProperties.PrimaryRegionProperties := {|
      PrimaryRegionProperties.AllowedMediaSourceAddressPrefixes :=
        wrap (ServiceRegionPropertiesModel.AllowedMediaSourceAddressPrefixes v);
      PrimaryRegionProperties.AllowedSignalingSourceAddressPrefixes :=
        wrap (ServiceRegionPropertiesModel.AllowedSignalingSourceAddressPrefixes v);
      PrimaryRegionProperties.EsrpAddresses :=
        wrap (ServiceRegionPropertiesModel.EsrpAddresses v);
      PrimaryRegionProperties.OperatorAddresses :=
        ServiceRegionPropertiesModel.OperatorAddresses v |} |}) <$> elems inputList)
  ∧ wrap nil_slice = nil_ptr
  ∧ wrap (Slice []) = Ref (Slice []).
Proof.
  intros wrap. split; [|done].
  rewrite expandServiceRegionPropertiesModel_elems. f_equal.
  apply list_fmap_ext. intros _ v _.
  assert (Hwrap : ∀ s, utils.StringSlice s = wrap s) by (by intros []).
  by rewrite !Hwrap.
Qed.

(** C9: [expandCommunicationsPlatformModel] converts the platforms one by
    one, in order, into the remote enumeration type, and a platforms list
    without elements, nil or empty, yields the nil collection; the result is
    never a non-nil empty list. *)
Theorem expandCommunicationsPlatformModel_spec (input : slice string) :
  expandCommunicationsPlatformModel input =
    match elems input with
    | [] => nil_slice
    | _ :: _ => Slice ((λ v, v : CommunicationsPlatform) <$> elems input)
    end
  ∧ expandCommunicationsPlatformModel nil_slice = nil_slice
  ∧ expandCommunicationsPlatformModel (Slice []) = nil_slice
  ∧ expandCommunicationsPlatformModel input ≠ Slice [].
Proof.
  split_and!; try done.
  - apply expandCommunicationsPlatformModel_elems.
  - rewrite expandCommunicationsPlatformModel_elems. by destruct (elems input).
Qed.

(** C10: flattening treats absence differently in the two collections.  A
    remote platforms collection without elements, nil or empty, flattens to
    the nil slice, not to an empty list, whereas a nil pointer to the remote
    service locations flattens to a non-nil empty list; the flattened service
    locations are in fact never nil. *)
Theorem flatten_absence_asymmetry `{External JSON}
    (input : slice CommunicationsPlatform) (inputList : ptr (slice ServiceRegionProperties.t)) :
  flattenCommunicationsPlatformModel nil_slice = nil_slice
  ∧ flattenCommunicationsPlatformModel (Slice []) = nil_slice
  ∧ is_nil (flattenCommunicationsPlatformModel input) = bool_decide (len input = 0)
  ∧ flattenServiceRegionPropertiesModel nil_ptr = Slice []
  ∧ is_nil (flattenServiceRegionPropertiesModel inputList) = false.
Proof.
  split_and!; try done.
  - rewrite flattenCommunicationsPlatformModel_elems. unfold len.
    by destruct (elems input).
  - destruct inputList as [|l]; [done|].
    by rewrite flattenServiceRegionPropertiesModel_elems.
Qed.

(** ** CustomizeDiff *)

Lemma CustomizeDiff_range_violation (model : CommunicationsGatewayModel.t)
    (rest : list ServiceRegionPropertiesModel.t) :
  is_Some (CustomizeDiff_range model rest) ↔ Exists (esrp_rule_violated model) rest.
Proof.
  induction rest as [|sls rest IH]; cbn [CustomizeDiff_range].
  - rewrite Exists_nil. split; [by intros [? ?]|done].
  - rewrite Exists_cons, <- IH. unfold esrp_rule_violated.
    repeat case_bool_decide; split; eauto; intros [[[? ?]|[? ?]]|?]; try done; lia.
Qed.




(** ** Running the handlers *)

(** Unfold the monad of the handlers and compute as far as the collaborators'
    answers are known. *)
Ltac exec :=
  unfold mbind, M_bind, mret, M_ret, return_, panic, assign, client_Get,
    client_CreateOrUpdateThenPoll, client_DeleteThenPoll, metadata_ResourceData_Id,
    metadata_SetID, metadata_MarkAsGone, metadata_Encode, record in *;
  cbn.

Section Runs.
Context {JSON : Type} {ext : External JSON} {W : Type}.
Variable client : CommunicationsGatewaysClient JSON W.

(** What [Create] does once the existence probe reports not-found: it sends
    [Expand model], or stops at the opaque blob. *)
Lemma Create_sends_Expand (metadata : ResourceMetaData) (model : CommunicationsGatewayModel.t)
    (w : W) (rid : string) existing err :
  let id := NewCommunicationsGatewayID (Account_SubscriptionId metadata)
              (CommunicationsGatewayModel.ResourceGroupName model)
              (CommunicationsGatewayModel.Name model) in
  Decode metadata = Ok model →
  Get client id w = (existing, err) →
  response_WasNotFound (HttpResponse existing) = true →
  run (Create client metadata) w rid =
  match Expand model with
  | Err e => (Return (Some e), mkSt w [CallGet id] rid None)
  | Ok resource =>
      let '(failed, w') := CreateOrUpdateThenPoll client id resource w in
      match failed with
      | Some e =>
          (Return (Some (Errorf "creating %s: %+v" [ArgId id; ArgError e])),
           mkSt w' [CallGet id; CallCreateOrUpdate id resource] rid None)
      | None =>
          (Return None, mkSt w' [CallGet id; CallCreateOrUpdate id resource] (ID id) None)
      end
  end.
Proof.
  intros id Hdecode Hget Hnf. unfold run, Create, Expand. rewrite Hdecode.
  exec. fold id. rewrite Hget. exec. rewrite Hnf.
  destruct err; exec.
  all: case_bool_decide; exec.
  all: try destruct (json_Unmarshal _); exec; try done.
  all: destruct (is_nil (CommunicationsGatewayModel.EmergencyDialStrings model)); exec.
  all: destruct (CreateOrUpdateThenPoll _ _ _ _) as [[?|] ?]; done.
Qed.

(** C3: when the existence probe succeeds and does not report not-found,
    [Create] returns the import-required signal for the identity, having
    issued the probe and nothing else: no CreateOrUpdate is sent and the
    remote state and the host's resource data are as before. *)
Theorem Create_existing_requires_import (metadata : ResourceMetaData)
    (model : CommunicationsGatewayModel.t) (w : W) (rid : string) existing :
  let id := NewCommunicationsGatewayID (Account_SubscriptionId metadata)
              (CommunicationsGatewayModel.ResourceGroupName model)
              (CommunicationsGatewayModel.Name model) in
  Decode metadata = Ok model →
  Get client id w = (existing, None) →
  response_WasNotFound (HttpResponse existing) = false →
  run (Create client metadata) w rid =
  (Return (Some (ImportAsExistsError ResourceType id)), mkSt w [CallGet id] rid None).
Proof.
  intros id Hdecode Hget Hfound. unfold run, Create. rewrite Hdecode.
  exec. fold id. rewrite Hget. exec. by rewrite Hfound.
Qed.

(** The steps of a handler, one at a time. *)
Lemma bind_ret {A B} (a : A) (k : A → M JSON W B) s : (mret a ≫= k) s = k a s.
Proof. done. Qed.

Lemma bind_return {A B} err (k : A → M JSON W B) s : (return_ err ≫= k) s = (Return err, s).
Proof. done. Qed.

Lemma bind_ResourceData_Id {B} (k : string → M JSON W B) s :
  (metadata_ResourceData_Id ≫= k) s = k (ResourceData_Id s) s.
Proof. done. Qed.

Lemma bind_Get {B} id (k : _ → M JSON W B) s :
  (client_Get client id ≫= k) s = k (Get client id (remote s)) (record (CallGet id) s).
Proof. done. Qed.

(** A guarded assignment through a [Properties] pointer that is not nil. *)
Lemma bind_guarded_assign {B} (changed : bool) f location p tags
    (k : communicationsgateways.CommunicationsGateway.t JSON → M JSON W B) s :
  ((if changed then assign f (CommunicationsGateway.mk location (Ref p) tags)
    else mret (CommunicationsGateway.mk location (Ref p) tags)) ≫= k) s =
  k (CommunicationsGateway.mk location (Ref (when_changed changed f p)) tags) s.
Proof. by destruct changed. Qed.

Lemma bind_assign {B} f location p tags
    (k : communicationsgateways.CommunicationsGateway.t JSON → M JSON W B) s :
  (assign f (CommunicationsGateway.mk location (Ref p) tags) ≫= k) s =
  k (CommunicationsGateway.mk location (Ref (f p)) tags) s.
Proof. done. Qed.

(** The steps of [Update] after the opaque blob. *)
Local Ltac Update_tail metadata :=
  cbv beta;
  do 2 (rewrite bind_guarded_assign; cbv beta);
  destruct (HasChange metadata "tags");
  cbv beta iota zeta;
  unfold CommunicationsGateway.set_Tags;
  cbn [CommunicationsGateway.Location CommunicationsGateway.Properties
       CommunicationsGateway.Tags];
  rewrite bind_guarded_assign; cbv beta;
  exec;
  by destruct (CreateOrUpdateThenPoll _ _ _ _) as [[?|] ?].

(** What [Update] does once the resource is fetched with its properties: it
    stops at the opaque blob, or sends the fetched resource with the changed
    sub-fields overwritten. *)
Lemma Update_sends (metadata : ResourceMetaData) (model : CommunicationsGatewayModel.t)
    (w : W) (rid : string) id resp fetched p :
  ParseCommunicationsGatewayID rid = Ok id →
  Decode metadata = Ok model →
  Get client id w = (resp, None) →
  Model resp = Ref fetched →
  CommunicationsGateway.Properties fetched = Ref p →
  run (Update client metadata) w rid =
  match (if HasChange metadata "api_bridge" then Update_apiBridge model
         else Ok (CommunicationsGatewayProperties.ApiBridge p)) with
  | Err e => (Return (Some e), mkSt w [CallGet id] rid None)
  | Ok apiBridge =>
      let resource := Update_resource metadata model apiBridge fetched p in
      let '(failed, w') := CreateOrUpdateThenPoll client id resource w in
      (Return match failed with
              | Some e => Some (Errorf "updating %s: %+v" [ArgId id; ArgError e])
              | None => None
              end,
       mkSt w' [CallGet id; CallCreateOrUpdate id resource] rid None)
  end.
Proof.
  intros Hparse Hdecode Hget Hmodel Hprops.
  destruct fetched as [location properties tags]. cbn in Hprops. subst properties.
  unfold run, Update, Update_apiBridge, Update_resource, Update_changes.
  rewrite bind_ResourceData_Id. cbn [ResourceData_Id]. rewrite Hparse, bind_ret.
  rewrite Hdecode, bind_ret, bind_Get. cbn [remote]. rewrite Hget. cbv beta iota.
  rewrite bind_ret, Hmodel, bind_ret.
  do 4 (rewrite bind_guarded_assign; cbv beta).
  destruct (HasChange metadata "api_bridge").
  - case_bool_decide; cbn [negb].
    + rewrite bind_assign. Update_tail metadata.
    + destruct (json_Unmarshal _); [|by rewrite bind_return].
      rewrite bind_assign. Update_tail metadata.
  - rewrite bind_ret. Update_tail metadata.
Qed.

(** Where [Update] stops before it has a fetched resource in hand. *)
Lemma Update_stops (metadata : ResourceMetaData) (w : W) (rid : string) :
  match ParseCommunicationsGatewayID rid with
  | Err e => run (Update client metadata) w rid = (Return (Some e), mkSt w [] rid None)
  | Ok id =>
      match Decode metadata with
      | Err e =>
          run (Update client metadata) w rid =
          (Return (Some (Errorf "decoding: %+v" [ArgError e])), mkSt w [] rid None)
      | Ok _ =>
          match Get client id w with
          | (_, Some e) =>
              run (Update client metadata) w rid =
              (Return (Some (Errorf "retrieving %s: %+v" [ArgId id; ArgError e])),
               mkSt w [CallGet id] rid None)
          | (resp, None) =>
              match Model resp with
              | nil_ptr =>
                  run (Update client metadata) w rid =
                  (Return (Some (Errorf "retrieving %s: model was nil" [ArgId id])),
                   mkSt w [CallGet id] rid None)
              | Ref _ => True
              end
          end
      end
  end.
Proof.
  unfold run, Update. rewrite bind_ResourceData_Id. cbn [ResourceData_Id].
  destruct (ParseCommunicationsGatewayID rid) as [id|]; [|done].
  rewrite bind_ret. destruct (Decode metadata); [|done].
  rewrite bind_ret, bind_Get. cbn [remote].
  destruct (Get client id w) as [resp [e|]]; [done|]. cbv beta iota.
  rewrite bind_ret. by destruct (Model resp).
Qed.

(** A fetched resource without properties: the first guarded assignment
    dereferences the nil pointer. *)
Lemma Update_codecs_nil_Properties (metadata : ResourceMetaData)
    (model : CommunicationsGatewayModel.t) (w : W) (rid : string) id resp fetched :
  ParseCommunicationsGatewayID rid = Ok id →
  Decode metadata = Ok model →
  Get client id w = (resp, None) →
  Model resp = Ref fetched →
  CommunicationsGateway.Properties fetched = nil_ptr →
  HasChange metadata "codecs" = true →
  run (Update client metadata) w rid = (Panic, mkSt w [CallGet id] rid None).
Proof.
  intros Hparse Hdecode Hget Hmodel Hprops Hcodecs. unfold run, Update.
  rewrite bind_ResourceData_Id. cbn [ResourceData_Id]. rewrite Hparse, bind_ret.
  rewrite Hdecode, bind_ret, bind_Get. cbn [remote]. rewrite Hget. cbv beta iota.
  rewrite bind_ret, Hmodel, bind_ret, Hcodecs. unfold assign. by rewrite Hprops.
Qed.

Lemma Update_changes_ApiBridge (metadata : ResourceMetaData)
    (model : CommunicationsGatewayModel.t) apiBridge p :
  CommunicationsGatewayProperties.ApiBridge (Update_changes metadata model apiBridge p) =
  if HasChange metadata "api_bridge" then apiBridge
  else CommunicationsGatewayProperties.ApiBridge p.
Proof.
  unfold Update_changes, when_changed.
  repeat match goal with |- context [HasChange metadata ?key] =>
    destruct (HasChange metadata key) end; done.
Qed.

(** C2: with "codecs" the only field marked changed, whatever resource
    [Update] sends to CreateOrUpdate is the fetched resource with its codecs
    replaced by the configured one: location, tags, e911 type, platforms,
    service locations, api bridge, emergency dial strings, on-prem MCP flag,
    voicemail pilot number, connectivity and label scope are the fetched
    values. *)
Theorem Update_codecs_only (metadata : ResourceMetaData) (w : W) (rid : string)
    (id : CommunicationsGatewayId) (resource : CommunicationsGateway.t JSON) :
  (∀ key, HasChange metadata key = true ↔ key = "codecs") →
  In (CallCreateOrUpdate id resource) (calls (run (Update client metadata) w rid).2) →
  ∃ model resp fetched p sent,
    Decode metadata = Ok model ∧
    ParseCommunicationsGatewayID rid = Ok id ∧
    Get client id w = (resp, None) ∧
    Model resp = Ref fetched ∧
    CommunicationsGateway.Properties fetched = Ref p ∧
    CommunicationsGateway.Properties resource = Ref sent ∧
    CommunicationsGatewayProperties.Codecs sent =
      Slice [CommunicationsGatewayModel.Codecs model] ∧
    CommunicationsGatewayProperties.E911Type sent = CommunicationsGatewayProperties.E911Type p ∧
    CommunicationsGatewayProperties.Platforms sent = CommunicationsGatewayProperties.Platforms p ∧
    CommunicationsGatewayProperties.ServiceLocations sent =
      CommunicationsGatewayProperties.ServiceLocations p ∧
    CommunicationsGatewayProperties.ApiBridge sent = CommunicationsGatewayProperties.ApiBridge p ∧
    CommunicationsGatewayProperties.EmergencyDialStrings sent =
      CommunicationsGatewayProperties.EmergencyDialStrings p ∧
    CommunicationsGatewayProperties.OnPremMcpEnabled sent =
      CommunicationsGatewayProperties.OnPremMcpEnabled p ∧
    CommunicationsGatewayProperties.TeamsVoicemailPilotNumber sent =
      CommunicationsGatewayProperties.TeamsVoicemailPilotNumber p ∧
    CommunicationsGatewayProperties.Connectivity sent =
      CommunicationsGatewayProperties.Connectivity p ∧
    CommunicationsGatewayProperties.AutoGeneratedDomainNameLabelScope sent =
      CommunicationsGatewayProperties.AutoGeneratedDomainNameLabelScope p ∧
    CommunicationsGateway.Tags resource = CommunicationsGateway.Tags fetched ∧
    CommunicationsGateway.Location resource = CommunicationsGateway.Location fetched.
Proof.
  intros Hchanged Hsent.
  assert (Hcodecs : HasChange metadata "codecs" = true) by by apply Hchanged.
  assert (Hothers : ∀ key, key ≠ "codecs" → HasChange metadata key = false).
  { intros key Hkey. destruct (HasChange metadata key) eqn:E; [|done].
    by apply Hchanged in E. }
  pose proof (Update_stops metadata w rid) as Hstops.
  destruct (ParseCommunicationsGatewayID rid) as [id'|] eqn:Hparse;
    [|by rewrite Hstops in Hsent].
  destruct (Decode metadata) as [model|] eqn:Hdecode; [|by rewrite Hstops in Hsent].
  destruct (Get client id' w) as [resp [e|]] eqn:Hget.
  { rewrite Hstops in Hsent. by destruct Hsent as [|[]]. }
  destruct (Model resp) as [|fetched] eqn:Hmodel.
  { rewrite Hstops in Hsent. by destruct Hsent as [|[]]. }
  destruct (CommunicationsGateway.Properties fetched) as [|p] eqn:Hprops.
  { rewrite (Update_codecs_nil_Properties _ _ _ _ _ _ _ Hparse Hdecode Hget Hmodel Hprops Hcodecs)
      in Hsent. by destruct Hsent as [|[]]. }
  rewrite (Update_sends _ _ _ _ _ _ _ _ Hparse Hdecode Hget Hmodel Hprops) in Hsent.
  rewrite (Hothers "api_bridge") in Hsent by done. cbv zeta in Hsent.
  destruct (CreateOrUpdateThenPoll client id' _ w) as [failed w'].
  destruct Hsent as [|[Hsent|[]]]; [done|]. injection Hsent as <- <-.
  exists model, resp, fetched, p. eexists. split_and!; try done.
  all: unfold Update_resource, Update_changes.
  all: rewrite Hcodecs, ?Hothers by done; done.
Qed.

(** C4: the empty opaque blob is sent differently by the two handlers.
    [Create], once the probe reports not-found, sends a resource whose
    ApiBridge is a non-nil pointer to a nil value; [Update], with api_bridge
    marked changed and the resource fetched with its properties, sends a
    resource whose ApiBridge is the nil pointer. *)
Theorem ApiBridge_empty_Create_vs_Update :
  (∀ metadata model w rid existing err,
     let id := NewCommunicationsGatewayID (Account_SubscriptionId metadata)
                 (CommunicationsGatewayModel.ResourceGroupName model)
                 (CommunicationsGatewayModel.Name model) in
     Decode metadata = Ok model →
     CommunicationsGatewayModel.ApiBridge model = "" →
     Get client id w = (existing, err) →
     response_WasNotFound (HttpResponse existing) = true →
     ∃ resource p,
       calls (run (Create client metadata) w rid).2 =
         [CallGet id; CallCreateOrUpdate id resource] ∧
       CommunicationsGateway.Properties resource = Ref p ∧
       CommunicationsGatewayProperties.ApiBridge p = Ref None)
  ∧
  (∀ metadata model w rid id resp fetched p0,
     ParseCommunicationsGatewayID rid = Ok id →
     Decode metadata = Ok model →
     CommunicationsGatewayModel.ApiBridge model = "" →
     HasChange metadata "api_bridge" = true →
     Get client id w = (resp, None) →
     Model resp = Ref fetched →
     CommunicationsGateway.Properties fetched = Ref p0 →
     ∃ resource p,
       calls (run (Update client metadata) w rid).2 =
         [CallGet id; CallCreateOrUpdate id resource] ∧
       CommunicationsGateway.Properties resource = Ref p ∧
       CommunicationsGatewayProperties.ApiBridge p = nil_ptr).
Proof.
  split.
  - intros metadata model w rid existing err id Hdecode Hempty Hget Hnf.
    rewrite (Create_sends_Expand _ _ _ _ _ _ Hdecode Hget Hnf).
    unfold Expand. rewrite Hempty, bool_decide_eq_true_2 by done. cbn.
    destruct (CreateOrUpdateThenPoll client _ _ w) as [[?|] ?]; by eexists _, _.
  - intros metadata model w rid id resp fetched p0 Hparse Hdecode Hempty Hbridge
      Hget Hmodel Hprops.
    rewrite (Update_sends _ _ _ _ _ _ _ _ Hparse Hdecode Hget Hmodel Hprops).
    rewrite Hbridge. unfold Update_apiBridge.
    rewrite Hempty, bool_decide_eq_true_2 by done. cbn.
    destruct (CreateOrUpdateThenPoll client id _ w) as [failed w']. cbn.
    eexists _, _. split_and!; [done..|].
    by rewrite Update_changes_ApiBridge, Hbridge.
Qed.

(** C7: when the fetch of [Read] fails, a not-found answer makes [Read] mark
    the tracked instance gone (its identifier is cleared) and return no
    error; any other failure is returned as an error and the tracked instance
    is left as it was.  Either way the fetch is the only remote call. *)
Theorem Read_not_found_marks_gone (metadata : ResourceMetaData) (w : W) (rid : string)
    (id : CommunicationsGatewayId) (resp : GetOperationResponse JSON) (err : error) :
  ParseCommunicationsGatewayID rid = Ok id →
  Get client id w = (resp, Some err) →
  run (Read client metadata) w rid =
  if response_WasNotFound (HttpResponse resp)
  then (Return None, mkSt w [CallGet id] "" None)
  else (Return (Some (Errorf "retrieving %s: %+v" [ArgId id; ArgError err])),
        mkSt w [CallGet id] rid None).
Proof.
  intros Hparse Hget. unfold run, Read.
  rewrite bind_ResourceData_Id. cbn [ResourceData_Id]. rewrite Hparse, bind_ret.
  rewrite bind_Get. cbn [remote]. rewrite Hget. cbv beta iota.
  by destruct (response_WasNotFound (HttpResponse resp)).
Qed.


(** What [Read] does with a fetched resource: it encodes [Flatten] of it, or
    stops where the opaque blob cannot be serialised. *)
Lemma Read_encodes_Flatten (metadata : ResourceMetaData) (w : W) (rid : string)
    id resp fetched :
  ParseCommunicationsGatewayID rid = Ok id →
  Get client id w = (resp, None) →
  Model resp = Ref fetched →
  run (Read client metadata) w rid =
  match Flatten id fetched with
  | Err e => (Return (Some e), mkSt w [CallGet id] rid None)
  | Ok state => (Return None, mkSt w [CallGet id] rid (Some state))
  end.
Proof.
  intros Hparse Hget Hmodel. unfold run, Read, Flatten.
  rewrite bind_ResourceData_Id. cbn [ResourceData_Id]. rewrite Hparse, bind_ret.
  rewrite bind_Get. cbn [remote]. rewrite Hget. cbv beta iota.
  rewrite bind_ret, Hmodel, bind_ret. by destruct (Read_state id fetched).
Qed.

End Runs.

(** ** Expand then Flatten *)

Section Roundtrip.
Context {JSON : Type} {ext : External JSON}.

Lemma platforms_roundtrip (input : slice string) :
  input ≠ Slice [] →
  flattenCommunicationsPlatformModel (expandCommunicationsPlatformModel input) = input.
Proof.
  intros Hnonempty. rewrite expandCommunicationsPlatformModel_elems.
  destruct input as [|[|v l]]; [done..|]. cbn [elems].
  rewrite flattenCommunicationsPlatformModel_elems. cbn [elems].
  by rewrite !list_fmap_id.
Qed.

Lemma StringSlice_roundtrip (input : slice string) :
  match utils.StringSlice input with
  | nil_ptr => nil_slice
  | Ref s => s
  end = input.
Proof. by destruct input. Qed.

Lemma service_location_roundtrip (v : ServiceRegionPropertiesModel.t) :
  location_Normalize (ServiceRegionPropertiesModel.Location v) =
    ServiceRegionPropertiesModel.Location v →
  flattenServiceRegionProperties
    (ServiceRegionProperties.mk
       (location_Normalize (ServiceRegionPropertiesModel.Location v))
       (PrimaryRegionProperties.mk
          (utils.StringSlice (ServiceRegionPropertiesModel.AllowedMediaSourceAddressPrefixes v))
          (utils.StringSlice (ServiceRegionPropertiesModel.AllowedSignalingSourceAddressPrefixes v))
          (utils.StringSlice (ServiceRegionPropertiesModel.EsrpAddresses v))
          (ServiceRegionPropertiesModel.OperatorAddresses v))) = v.
Proof.
  intros Hloc. unfold flattenServiceRegionProperties. cbn.
  rewrite !StringSlice_roundtrip, !Hloc.
  destruct v as [? [|?] ? ? ?]; done.
Qed.

Lemma service_locations_roundtrip (inputList : slice ServiceRegionPropertiesModel.t) :
  inputList ≠ nil_slice →
  Forall (λ sls, location_Normalize (ServiceRegionPropertiesModel.Location sls) =
                 ServiceRegionPropertiesModel.Location sls) (elems inputList) →
  flattenServiceRegionPropertiesModel (Ref (expandServiceRegionPropertiesModel inputList)) =
  inputList.
Proof.
  intros Hnonnil Hlocs. destruct inputList as [|l]; [done|].
  rewrite expandServiceRegionPropertiesModel_elems, flattenServiceRegionPropertiesModel_elems.
  cbn [elems] in *. clear Hnonnil. f_equal. rewrite <- list_fmap_compose.
  induction Hlocs as [|v l Hv _ IH]; [done|]. cbn [fmap list_fmap].
  f_equal; [|done]. by apply service_location_roundtrip.
Qed.

(** C5 (amended): for a model whose location strings are normalised, whose
    platforms list is nil or has elements, whose service-location list is not
    nil, and whose opaque blob is empty or parses, [Expand] succeeds and
    [Flatten], under the identity [Create] builds, gives back the model with
    the opaque blob re-serialised (the empty string for an empty or JSON-null
    blob) and every other field as it was, whether or not the address lists
    of the service locations are populated. *)
Theorem Expand_Flatten_roundtrip (subscriptionId : string)
    (model : CommunicationsGatewayModel.t) (apiBridge : string) :
  normalized model →
  CommunicationsGatewayModel.Platforms model ≠ Slice [] →
  CommunicationsGatewayModel.ServiceLocation model ≠ nil_slice →
  reserialized (CommunicationsGatewayModel.ApiBridge model) = Ok apiBridge →
  ∃ resource,
    Expand model = Ok resource ∧
    Flatten (NewCommunicationsGatewayID subscriptionId
               (CommunicationsGatewayModel.ResourceGroupName model)
               (CommunicationsGatewayModel.Name model)) resource =
    Ok (with_ApiBridge apiBridge model).
Proof.
  intros [Hloc Hlocs] Hplatforms Hlocations Hbridge.
  assert (Hvalue : ∃ v,
    (if negb (bool_decide (CommunicationsGatewayModel.ApiBridge model = ""))
     then match json_Unmarshal (CommunicationsGatewayModel.ApiBridge model) with
          | Err err => Err (Errorf "unmarshalling value for ApiBridge: %+v" [ArgError err])
          | Ok v => Ok v
          end
     else Ok None) = Ok v ∧
    match v with
    | Some v => json_Marshal v
    | None => Ok ""
    end = Ok apiBridge).
  { unfold reserialized in Hbridge. case_bool_decide; cbn [negb]; [by exists None|].
    destruct (json_Unmarshal _) as [v|]; [by exists v|done]. }
  destruct Hvalue as (v & Hexpand & Hflatten).
  unfold Expand. rewrite Hexpand. eexists. split; [done|].
  unfold Flatten, Read_state, with_ApiBridge.
  cbn -[flattenServiceRegionPropertiesModel flattenCommunicationsPlatformModel
        expandServiceRegionPropertiesModel expandCommunicationsPlatformModel].
  rewrite platforms_roundtrip, service_locations_roundtrip, !Hloc by done.
  destruct v as [v|].
  - destruct (json_Marshal v) as [s|]; [|done]. injection Hflatten as ->.
    by destruct (CommunicationsGatewayModel.EmergencyDialStrings model).
  - injection Hflatten as <-.
    by destruct (CommunicationsGatewayModel.EmergencyDialStrings model).
Qed.

End Roundtrip.

(** C5 as the specification states it fails on a platforms list that is
    empty but not nil: the model below has a single codec, every address list
    of its service location populated, normalised locations and an empty
    opaque blob, and comes back from [Expand] and [Flatten] with a nil
    platforms list, hence not as it was. *)
Lemma Expand_Flatten_empty_platforms_counterexample :
  fully_populated Fake.direct ∧ normalized Fake.direct ∧
  CommunicationsGatewayModel.ApiBridge Fake.direct = "" ∧
  ∃ (resource : CommunicationsGateway.t Fake.JSON) state,
    Expand Fake.direct = Ok resource ∧
    Flatten Fake.direct_id resource = Ok state ∧
    CommunicationsGatewayModel.Platforms Fake.direct = Slice [] ∧
    CommunicationsGatewayModel.Platforms state = nil_slice ∧
    state ≠ Fake.direct.
Proof.
  split_and!.
  - repeat constructor; cbn; lia.
  - split; [done|]. by repeat constructor.
  - done.
  - eexists _, _. split_and!; [reflexivity..|]. intros Heq.
    apply (f_equal CommunicationsGatewayModel.Platforms) in Heq. discriminate Heq.
Qed.

Lemma Expand_Flatten_roundtrip_witness :
  ∃ resource : CommunicationsGateway.t Fake.JSON,
    Expand Fake.abc = Ok resource ∧
    Flatten Fake.abc_id resource = Ok (with_ApiBridge "" Fake.abc).
Proof.
  apply (Expand_Flatten_roundtrip "sub" Fake.abc "").
  - split; [done|]. by repeat constructor.
  - done.
  - done.
  - reflexivity.
Defined.

(** ** The handlers on the in-memory double *)

Lemma Create_existing_requires_import_witness :
  run (Create Fake.client (Fake.metadata Fake.abc [])) Fake.store_abc "" =
  (Return (Some (ImportAsExistsError ResourceType Fake.abc_id)),
   mkSt Fake.store_abc [CallGet Fake.abc_id] "" None).
Proof.
  apply (Create_existing_requires_import Fake.client (Fake.metadata Fake.abc [])
           Fake.abc Fake.store_abc "" Fake.abc_found); reflexivity.
Defined.

Lemma Read_not_found_marks_gone_witness :
  run (Read Fake.client (Fake.metadata Fake.abc [])) ∅ (Fake.render Fake.abc_id) =
  (Return None, mkSt ∅ [CallGet Fake.abc_id] "" None).
Proof.
  exact (Read_not_found_marks_gone Fake.client (Fake.metadata Fake.abc []) ∅
           (Fake.render Fake.abc_id) Fake.abc_id Fake.abc_missing
           (Failure "ResourceNotFound") eq_refl eq_refl).
Defined.

Lemma Update_codecs_only_witness :
  ∃ p sent,
    CommunicationsGateway.Properties Fake.abc_remote = Ref p ∧
    CommunicationsGateway.Properties Fake.abc_pcmu_remote = Ref sent ∧
    CommunicationsGatewayProperties.Codecs sent = Slice ["PCMU"] ∧
    CommunicationsGatewayProperties.Platforms sent = CommunicationsGatewayProperties.Platforms p ∧
    CommunicationsGatewayProperties.ServiceLocations sent =
      CommunicationsGatewayProperties.ServiceLocations p ∧
    CommunicationsGateway.Tags Fake.abc_pcmu_remote = CommunicationsGateway.Tags Fake.abc_remote.
Proof.
  destruct (Update_codecs_only Fake.client (Fake.metadata Fake.abc_pcmu ["codecs"])
              Fake.store_abc (Fake.render Fake.abc_id) Fake.abc_id Fake.abc_pcmu_remote)
    as (model & resp & fetched & p & sent & Hdecode & _ & Hget & Hmodel & Hp & Hsent &
        Hcodecs & _ & Hplatforms & Hlocations & _ & _ & _ & _ & _ & _ & Htags & _).
  - intros key. cbn. by rewrite bool_decide_eq_true, list_elem_of_singleton.
  - vm_compute. right. left. reflexivity.
  - injection Hdecode as <-. injection Hget as <-. injection Hmodel as <-.
    by exists p, sent.
Defined.

Lemma ApiBridge_empty_Create_vs_Update_witness :
  (∃ resource p,
     calls (run (Create Fake.client (Fake.metadata Fake.abc [])) ∅ "").2 =
       [CallGet Fake.abc_id; CallCreateOrUpdate Fake.abc_id resource] ∧
     CommunicationsGateway.Properties resource = Ref p ∧
     CommunicationsGatewayProperties.ApiBridge p = Ref None)
  ∧
  (∃ resource p,
     calls (run (Update Fake.client (Fake.metadata Fake.abc ["api_bridge"]))
              Fake.store_abc (Fake.render Fake.abc_id)).2 =
       [CallGet Fake.abc_id; CallCreateOrUpdate Fake.abc_id resource] ∧
     CommunicationsGateway.Properties resource = Ref p ∧
     CommunicationsGatewayProperties.ApiBridge p = nil_ptr).
Proof.
  destruct (ApiBridge_empty_Create_vs_Update Fake.client) as [HCreate HUpdate]. split.
  - apply (HCreate (Fake.metadata Fake.abc []) Fake.abc ∅ "" Fake.abc_missing
             (Some (Failure "ResourceNotFound"))); reflexivity.
  - by eapply (HUpdate (Fake.metadata Fake.abc ["api_bridge"]) Fake.abc Fake.store_abc
                 (Fake.render Fake.abc_id) Fake.abc_id Fake.abc_found Fake.abc_remote).
Defined.



(** The worked example of the specification: the gateway [abc] passes the
    ESRP check, is sent with the single codec and with an ESRP list that is a
    pointer to an empty collection, and is read back as it was created. *)
Example abc_passes_CustomizeDiff : CustomizeDiff (Fake.metadata Fake.abc []) = None.
Proof. reflexivity. Qed.

Example abc_sent_by_Create :
  ∃ p location,
    calls (run (Create Fake.client (Fake.metadata Fake.abc [])) ∅ "").2 =
      [CallGet Fake.abc_id; CallCreateOrUpdate Fake.abc_id Fake.abc_remote] ∧
    CommunicationsGateway.Properties Fake.abc_remote = Ref p ∧
    CommunicationsGatewayProperties.Codecs p = Slice ["PCMA"] ∧
    CommunicationsGatewayProperties.ServiceLocations p = Slice [location] ∧
    PrimaryRegionProperties.EsrpAddresses
      (ServiceRegionProperties.PrimaryRegionProperties location) = Ref (Slice []).
Proof. by eexists _, _. Qed.

Example abc_read_back :
  let created := (run (Create Fake.client (Fake.metadata Fake.abc [])) ∅ "").2 in
  encoded (run (Read Fake.client (Fake.metadata Fake.abc []))
             (remote created) (ResourceData_Id created)).2 = Some Fake.abc.
Proof. reflexivity. Qed.

(** * Further properties of the handlers *)

Section Cases.
Context {JSON : Type} {ext : External JSON} {W : Type}.
Variable client : CommunicationsGatewaysClient JSON W.

(** Every way [Create] can go. *)
Lemma Create_cases (metadata : ResourceMetaData) (w : W) (rid : string) :
  run (Create client metadata) w rid =
  match Decode metadata with
  | Err e => (Return (Some (Errorf "decoding: %+v" [ArgError e])), mkSt w [] rid None)
  | Ok model =>
      let id := NewCommunicationsGatewayID (Account_SubscriptionId metadata)
                  (CommunicationsGatewayModel.ResourceGroupName model)
                  (CommunicationsGatewayModel.Name model) in
      let '(existing, err) := Get client id w in
      if response_WasNotFound (HttpResponse existing) then
        match Expand model with
        | Err e => (Return (Some e), mkSt w [CallGet id] rid None)
        | Ok resource =>
            let '(failed, w') := CreateOrUpdateThenPoll client id resource w in
            match failed with
            | Some e =>
                (Return (Some (Errorf "creating %s: %+v" [ArgId id; ArgError e])),
                 mkSt w' [CallGet id; CallCreateOrUpdate id resource] rid None)
            | None =>
                (Return None,
                 mkSt w' [CallGet id; CallCreateOrUpdate id resource] (ID id) None)
            end
        end
      else
        match err with
        | Some e =>
            (Return (Some (Errorf "checking for presence of existing %s: %+v"
                             [ArgId id; ArgError e])),
             mkSt w [CallGet id] rid None)
        | None =>
            (Return (Some (ImportAsExistsError ResourceType id)),
             mkSt w [CallGet id] rid None)
        end
  end.
Proof.
  destruct (Decode metadata) as [model|e] eqn:Hdecode.
  2: { unfold run, Create. by rewrite Hdecode. }
  cbv zeta.
  destruct (Get client _ w) as [existing err] eqn:Hget.
  destruct (response_WasNotFound (HttpResponse existing)) eqn:Hnf.
  - by rewrite (Create_sends_Expand client _ _ _ _ _ _ Hdecode Hget Hnf).
  - unfold run, Create. rewrite Hdecode, bind_ret, bind_Get. cbn [remote].
    rewrite Hget. cbv beta iota. rewrite Hnf. by destruct err.
Qed.

(** A guarded assignment through a [Properties] pointer that is nil. *)
Lemma bind_guarded_assign_nil {B} (changed : bool) f location tags
    (k : communicationsgateways.CommunicationsGateway.t JSON → M JSON W B) s :
  ((if changed then assign f (CommunicationsGateway.mk location nil_ptr tags)
    else mret (CommunicationsGateway.mk location nil_ptr tags)) ≫= k) s =
  if changed then (Panic, s) else k (CommunicationsGateway.mk location nil_ptr tags) s.
Proof. by destruct changed. Qed.

(** What [Update] does with a fetched resource that carries no properties:
    the first assignment through the nil pointer panics, a blob that does not
    parse is reported before its assignment, and with none of these fields
    marked changed the resource is sent. *)
Lemma Update_bare (metadata : ResourceMetaData) (model : CommunicationsGatewayModel.t)
    (w : W) (rid : string) id resp fetched :
  ParseCommunicationsGatewayID rid = Ok id →
  Decode metadata = Ok model →
  Get client id w = (resp, None) →
  Model resp = Ref fetched →
  CommunicationsGateway.Properties fetched = nil_ptr →
  run (Update client metadata) w rid =
  let stopped := mkSt w [CallGet id] rid None in
  if HasChange metadata "codecs" || HasChange metadata "e911_type" ||
     HasChange metadata "platforms" || HasChange metadata "service_location"
  then (Panic, stopped)
  else if HasChange metadata "api_bridge" then
    if negb (bool_decide (CommunicationsGatewayModel.ApiBridge model = "")) then
      match json_Unmarshal (CommunicationsGatewayModel.ApiBridge model) with
      | Err err =>
          (Return (Some (Errorf "unmarshalling json value for ApiBridge: %+v" [ArgError err])),
           stopped)
      | Ok _ => (Panic, stopped)
      end
    else (Panic, stopped)
  else if HasChange metadata "emergency_dial_strings" ||
          HasChange metadata "on_prem_mcp_enabled" ||
          HasChange metadata "microsoft_teams_voicemail_pilot_number"
  then (Panic, stopped)
  else
    let resource :=
      if HasChange metadata "tags"
      then CommunicationsGateway.set_Tags (Ref (CommunicationsGatewayModel.Tags model)) fetched
      else fetched in
    let '(failed, w') := CreateOrUpdateThenPoll client id resource w in
    (Return (wrapped "updating %s: %+v" id failed),
     mkSt w' [CallGet id; CallCreateOrUpdate id resource] rid None).
Proof.
  intros Hparse Hdecode Hget Hmodel Hprops.
  destruct fetched as [location properties tags]. cbn in Hprops. subst properties.
  unfold run, Update.
  rewrite bind_ResourceData_Id. cbn [ResourceData_Id]. rewrite Hparse, bind_ret.
  rewrite Hdecode, bind_ret, bind_Get. cbn [remote]. rewrite Hget. cbv beta iota.
  rewrite bind_ret, Hmodel, bind_ret. cbv zeta.
  do 4 (rewrite bind_guarded_assign_nil;
        match goal with |- context [HasChange metadata ?key] =>
          destruct (HasChange metadata key) end; [done|]; cbn [orb]).
  destruct (HasChange metadata "api_bridge").
  { case_bool_decide; cbn [negb]; [done|]. by destruct (json_Unmarshal _). }
  rewrite bind_ret.
  do 2 (rewrite bind_guarded_assign_nil;
        match goal with |- context [HasChange metadata ?key] =>
          destruct (HasChange metadata key) end; [done|]; cbn [orb]).
  destruct (HasChange metadata "tags"); unfold CommunicationsGateway.set_Tags;
    cbn [CommunicationsGateway.Location CommunicationsGateway.Properties
         CommunicationsGateway.Tags].
  all: rewrite bind_guarded_assign_nil.
  all: destruct (HasChange metadata "microsoft_teams_voicemail_pilot_number"); [done|].
  all: exec.
  all: by destruct (CreateOrUpdateThenPoll client id _ w) as [[?|] ?].
Qed.

End Cases.

Section Further.
Context {JSON : Type} {ext : External JSON} {W : Type}.
Variable client : CommunicationsGatewaysClient JSON W.

Lemma Expand_succeeds (model : CommunicationsGatewayModel.t) :
  (∃ resource, Expand model = Ok resource) ↔
  CommunicationsGatewayModel.ApiBridge model = "" ∨
  ∃ v, json_Unmarshal (CommunicationsGatewayModel.ApiBridge model) = Ok v.
Proof.
  unfold Expand. case_bool_decide as Hempty; cbn [negb].
  - split; [by left|by eexists].
  - destruct (json_Unmarshal _) as [v|e].
    + split; [right; by eexists|by eexists].
    + split; [by intros [? ?]|by intros [?|[? ?]]].
Qed.

(** X1: [Create] never panics and never encodes state.  It returns no error
    only after the probe and one CreateOrUpdate of [Expand model] under the
    identity built from the model, and only then does it track the new
    identity; on every error the tracked identifier is what it was. *)
Theorem Create_tracks_only_on_success (metadata : ResourceMetaData) (w : W) (rid : string) :
  encoded (run (Create client metadata) w rid).2 = None ∧
  ((∃ model id resource,
      Decode metadata = Ok model ∧
      id = NewCommunicationsGatewayID (Account_SubscriptionId metadata)
             (CommunicationsGatewayModel.ResourceGroupName model)
             (CommunicationsGatewayModel.Name model) ∧
      Expand model = Ok resource ∧
      (run (Create client metadata) w rid).1 = Return None ∧
      calls (run (Create client metadata) w rid).2 =
        [CallGet id; CallCreateOrUpdate id resource] ∧
      ResourceData_Id (run (Create client metadata) w rid).2 = ID id)
   ∨
   ((∃ e, (run (Create client metadata) w rid).1 = Return (Some e)) ∧
    ResourceData_Id (run (Create client metadata) w rid).2 = rid)).
Proof.
  rewrite Create_cases.
  destruct (Decode metadata) as [model|e]; [|split; [done|right; by eauto]].
  cbv zeta. destruct (Get client _ w) as [existing err].
  destruct (response_WasNotFound (HttpResponse existing)).
  - destruct (Expand model) as [resource|e] eqn:Hexpand; [|split; [done|right; by eauto]].
    destruct (CreateOrUpdateThenPoll client _ resource w) as [[e|] w'].
    + split; [done|right; by eauto].
    + split; [done|left]. by eexists model, _, resource.
  - destruct err; (split; [done|right; by eauto]).
Qed.

(** X2: [Create] issues a CreateOrUpdate exactly when the configuration
    decodes, the probe reports not-found, and the opaque blob is empty or
    parses. *)
Theorem Create_mutates_iff (metadata : ResourceMetaData) (w : W) (rid : string) :
  (∃ id resource,
     In (CallCreateOrUpdate id resource) (calls (run (Create client metadata) w rid).2)) ↔
  ∃ model,
    Decode metadata = Ok model ∧
    response_WasNotFound
      (HttpResponse
         (Get client
            (NewCommunicationsGatewayID (Account_SubscriptionId metadata)
               (CommunicationsGatewayModel.ResourceGroupName model)
               (CommunicationsGatewayModel.Name model)) w).1) = true ∧
    (CommunicationsGatewayModel.ApiBridge model = "" ∨
     ∃ v, json_Unmarshal (CommunicationsGatewayModel.ApiBridge model) = Ok v).
Proof.
  rewrite Create_cases.
  destruct (Decode metadata) as [model|e].
  2: { split; [by intros (? & ? & [])|by intros (? & ? & _)]. }
  cbv zeta. destruct (Get client _ w) as [existing err] eqn:Hget.
  destruct (response_WasNotFound (HttpResponse existing)) eqn:Hnf.
  - destruct (Expand model) as [resource|e] eqn:Hexpand.
    + split.
      * intros _. exists model. rewrite Hget. split_and!; [done..|].
        apply Expand_succeeds. by eexists.
      * intros _.
        destruct (CreateOrUpdateThenPoll client _ resource w) as [[?|] ?];
          eexists _, _; right; by left.
    + split.
      * by intros (? & ? & [|[]]).
      * intros (model' & [= <-] & _ & Hblob). apply Expand_succeeds in Hblob as [? Hok].
        by rewrite Hexpand in Hok.
  - split.
    + destruct err; by intros (? & ? & [|[]]).
    + intros (model' & [= <-] & Hfound & _). rewrite Hget in Hfound. cbn in Hfound.
      by rewrite Hnf in Hfound.
Qed.

(** X3: [Delete] never probes.  With a tracked identifier that does not
    parse it returns the parse error without any remote call; otherwise it
    issues the one delete and returns an error whenever that fails, whatever
    the failure, not-found included.  The tracked identifier is never
    cleared. *)
Theorem Delete_run (metadata : ResourceMetaData) (w : W) (rid : string) :
  run (Delete client metadata) w rid =
  match ParseCommunicationsGatewayID rid with
  | Err e => (Return (Some e), mkSt w [] rid None)
  | Ok id =>
      let '(failed, w') := DeleteThenPoll client id w in
      (Return (wrapped "deleting %s: %+v" id failed), mkSt w' [CallDelete id] rid None)
  end.
Proof.
  unfold run, Delete. rewrite bind_ResourceData_Id. cbn [ResourceData_Id].
  destruct (ParseCommunicationsGatewayID rid) as [id|e]; [|done].
  rewrite bind_ret. exec. by destruct (DeleteThenPoll client id w) as [[?|] ?].
Qed.

(** X4: [Read] never panics, never issues a mutating call and leaves the
    remote state as it is; its only call, if any, is one Get.  The tracked
    identifier is either kept or cleared, and it is cleared only together
    with a nil result and nothing encoded. *)
Theorem Read_only_reads (metadata : ResourceMetaData) (w : W) (rid : string) :
  no_remote_mutation w (run (Read client metadata) w rid) ∧
  (run (Read client metadata) w rid).1 ≠ Panic ∧
  (calls (run (Read client metadata) w rid).2 = [] ∨
   ∃ id, ParseCommunicationsGatewayID rid = Ok id ∧
         calls (run (Read client metadata) w rid).2 = [CallGet id]) ∧
  (ResourceData_Id (run (Read client metadata) w rid).2 = rid ∨
   ResourceData_Id (run (Read client metadata) w rid).2 = "" ∧
   (run (Read client metadata) w rid).1 = Return None ∧
   encoded (run (Read client metadata) w rid).2 = None).
Proof.
  unfold run, Read. rewrite bind_ResourceData_Id. cbn [ResourceData_Id].
  destruct (ParseCommunicationsGatewayID rid) as [id|e]; [|split_and!; by eauto].
  rewrite bind_ret, bind_Get. cbn [remote].
  destruct (Get client id w) as [resp [e|]]; cbv beta iota.
  - destruct (response_WasNotFound (HttpResponse resp)); split_and!; by eauto.
  - rewrite bind_ret. destruct (Model resp) as [|model]; [split_and!; by eauto|].
    rewrite bind_ret. destruct (Read_state id model); split_and!; by eauto.
Qed.

End Further.

Section Further_Update.
Context {JSON : Type} {ext : External JSON} {W : Type}.
Variable client : CommunicationsGatewaysClient JSON W.

(** The sub-fields of the properties after the partial update, one by one. *)
Lemma Update_changes_fields (metadata : ResourceMetaData)
    (model : CommunicationsGatewayModel.t) apiBridge p :
  let q := Update_changes metadata model apiBridge p in
  CommunicationsGatewayProperties.Codecs q =
    (if HasChange metadata "codecs" then Slice [CommunicationsGatewayModel.Codecs model]
     else CommunicationsGatewayProperties.Codecs p) ∧
  CommunicationsGatewayProperties.E911Type q =
    (if HasChange metadata "e911_type" then CommunicationsGatewayModel.E911Type model
     else CommunicationsGatewayProperties.E911Type p) ∧
  CommunicationsGatewayProperties.Platforms q =
    (if HasChange metadata "platforms"
     then expandCommunicationsPlatformModel (CommunicationsGatewayModel.Platforms model)
     else CommunicationsGatewayProperties.Platforms p) ∧
  CommunicationsGatewayProperties.ServiceLocations q =
    (if HasChange metadata "service_location"
     then expandServiceRegionPropertiesModel (CommunicationsGatewayModel.ServiceLocation model)
     else CommunicationsGatewayProperties.ServiceLocations p) ∧
  CommunicationsGatewayProperties.EmergencyDialStrings q =
    (if HasChange metadata "emergency_dial_strings"
     then Ref (CommunicationsGatewayModel.EmergencyDialStrings model)
     else CommunicationsGatewayProperties.EmergencyDialStrings p) ∧
  CommunicationsGatewayProperties.OnPremMcpEnabled q =
    (if HasChange metadata "on_prem_mcp_enabled"
     then Ref (CommunicationsGatewayModel.OnPremMcpEnabled model)
     else CommunicationsGatewayProperties.OnPremMcpEnabled p) ∧
  CommunicationsGatewayProperties.TeamsVoicemailPilotNumber q =
    (if HasChange metadata "microsoft_teams_voicemail_pilot_number"
     then Ref (CommunicationsGatewayModel.MicrosoftTeamsVoicemailPilotNumber model)
     else CommunicationsGatewayProperties.TeamsVoicemailPilotNumber p) ∧
  CommunicationsGatewayProperties.Connectivity q =
    CommunicationsGatewayProperties.Connectivity p ∧
  CommunicationsGatewayProperties.AutoGeneratedDomainNameLabelScope q =
    CommunicationsGatewayProperties.AutoGeneratedDomainNameLabelScope p.
Proof.
  unfold Update_changes, when_changed.
  repeat match goal with |- context [HasChange metadata ?key] =>
    destruct (HasChange metadata key) end; done.
Qed.

(** Whatever [Update] sends: the fetched resource after the partial update,
    or, when it carries no properties, the fetched resource itself with at
    most its tags replaced. *)
Lemma Update_sent (metadata : ResourceMetaData) (w : W) (rid : string) id resource :
  In (CallCreateOrUpdate id resource) (calls (run (Update client metadata) w rid).2) →
  ∃ model resp fetched,
    ParseCommunicationsGatewayID rid = Ok id ∧
    Decode metadata = Ok model ∧
    Get client id w = (resp, None) ∧
    Model resp = Ref fetched ∧
    ((∃ p apiBridge,
        CommunicationsGateway.Properties fetched = Ref p ∧
        (if HasChange metadata "api_bridge" then Update_apiBridge model
         else Ok (CommunicationsGatewayProperties.ApiBridge p)) = Ok apiBridge ∧
        resource = Update_resource metadata model apiBridge fetched p)
     ∨
     (CommunicationsGateway.Properties fetched = nil_ptr ∧
      Forall (λ key, HasChange metadata key = false) Update_Properties_keys ∧
      resource = if HasChange metadata "tags"
                 then CommunicationsGateway.set_Tags
                        (Ref (CommunicationsGatewayModel.Tags model)) fetched
                 else fetched)).
Proof.
  intros Hsent. pose proof (Update_stops client metadata w rid) as Hstops.
  destruct (ParseCommunicationsGatewayID rid) as [id'|] eqn:Hparse;
    [|by rewrite Hstops in Hsent].
  destruct (Decode metadata) as [model|] eqn:Hdecode; [|by rewrite Hstops in Hsent].
  destruct (Get client id' w) as [resp [e|]] eqn:Hget.
  { rewrite Hstops in Hsent. by destruct Hsent as [|[]]. }
  destruct (Model resp) as [|fetched] eqn:Hmodel.
  { rewrite Hstops in Hsent. by destruct Hsent as [|[]]. }
  destruct (CommunicationsGateway.Properties fetched) as [|p] eqn:Hprops.
  - rewrite (Update_bare client _ _ _ _ _ _ _ Hparse Hdecode Hget Hmodel Hprops) in Hsent.
    cbv zeta in Hsent.
    destruct (HasChange metadata "codecs") eqn:?; [by destruct Hsent as [|[]]|].
    destruct (HasChange metadata "e911_type") eqn:?; [by destruct Hsent as [|[]]|].
    destruct (HasChange metadata "platforms") eqn:?; [by destruct Hsent as [|[]]|].
    destruct (HasChange metadata "service_location") eqn:?; [by destruct Hsent as [|[]]|].
    cbn [orb] in Hsent.
    destruct (HasChange metadata "api_bridge") eqn:?.
    { destruct (negb _); [destruct (json_Unmarshal _)|]; by destruct Hsent as [|[]]. }
    destruct (HasChange metadata "emergency_dial_strings") eqn:?;
      [by destruct Hsent as [|[]]|].
    destruct (HasChange metadata "on_prem_mcp_enabled") eqn:?; [by destruct Hsent as [|[]]|].
    destruct (HasChange metadata "microsoft_teams_voicemail_pilot_number") eqn:?;
      [by destruct Hsent as [|[]]|].
    cbn [orb] in Hsent.
    destruct (CreateOrUpdateThenPoll client id' _ w) as [failed w'].
    destruct Hsent as [|[Hsent|[]]]; [done|]. injection Hsent as <- <-.
    exists model, resp, fetched. split_and!; [done..|]. right.
    split_and!; [done| |done]. by repeat constructor.
  - rewrite (Update_sends client _ _ _ _ _ _ _ _ Hparse Hdecode Hget Hmodel Hprops) in Hsent.
    destruct (if HasChange metadata "api_bridge" then _ else _) as [apiBridge|] eqn:Hbridge;
      [|by destruct Hsent as [|[]]].
    cbv zeta in Hsent.
    destruct (CreateOrUpdateThenPoll client id' _ w) as [failed w'].
    destruct Hsent as [|[Hsent|[]]]; [done|]. injection Hsent as <- <-.
    exists model, resp, fetched. split_and!; [done..|]. left. by exists p, apiBridge.
Qed.


(** X6: whatever is marked changed, the resource [Update] sends has the
    location of the fetched resource, and, where the fetched resource
    carries properties, their connectivity and domain-label scope; a fetched
    resource without properties is sent without properties. *)
Theorem Update_keeps_immutable_fields (metadata : ResourceMetaData) (w : W) (rid : string)
    (id : CommunicationsGatewayId) (resource : CommunicationsGateway.t JSON) :
  In (CallCreateOrUpdate id resource) (calls (run (Update client metadata) w rid).2) →
  ∃ resp fetched,
    Get client id w = (resp, None) ∧
    Model resp = Ref fetched ∧
    CommunicationsGateway.Location resource = CommunicationsGateway.Location fetched ∧
    match CommunicationsGateway.Properties fetched with
    | nil_ptr => CommunicationsGateway.Properties resource = nil_ptr
    | Ref p =>
        ∃ q, CommunicationsGateway.Properties resource = Ref q ∧
             CommunicationsGatewayProperties.Connectivity q =
               CommunicationsGatewayProperties.Connectivity p ∧
             CommunicationsGatewayProperties.AutoGeneratedDomainNameLabelScope q =
               CommunicationsGatewayProperties.AutoGeneratedDomainNameLabelScope p
    end.
Proof.
  intros Hsent.
  apply Update_sent in Hsent
    as (model & resp & fetched & _ & _ & Hget & Hmodel &
        [(p & apiBridge & Hprops & _ & ->)|(Hprops & _ & ->)]).
  all: exists resp, fetched; split_and!; [done..| |].
  - by destruct (HasChange metadata "tags").
  - rewrite Hprops. eexists. split; [done|].
    by destruct (Update_changes_fields metadata model apiBridge p)
      as (_ & _ & _ & _ & _ & _ & _ & ? & ?).
  - by destruct (HasChange metadata "tags").
  - rewrite Hprops. by destruct (HasChange metadata "tags").
Qed.

(** X7: with none of its keys marked changed, [Update] sends the fetched
    resource back exactly as fetched, with or without properties, and does
    not look at the opaque blob of the configuration. *)
Theorem Update_nothing_changed (metadata : ResourceMetaData)
    (model : CommunicationsGatewayModel.t) (w : W) (rid : string) id resp fetched :
  Forall (λ key, HasChange metadata key = false) Update_keys →
  ParseCommunicationsGatewayID rid = Ok id →
  Decode metadata = Ok model →
  Get client id w = (resp, None) →
  Model resp = Ref fetched →
  run (Update client metadata) w rid =
  let '(failed, w') := CreateOrUpdateThenPoll client id fetched w in
  (Return (wrapped "updating %s: %+v" id failed),
   mkSt w' [CallGet id; CallCreateOrUpdate id fetched] rid None).
Proof.
  intros Hkeys Hparse Hdecode Hget Hmodel. unfold Update_keys in Hkeys.
  repeat match goal with H : Forall _ (_ :: _) |- _ =>
    apply Forall_cons in H as [? H] end.
  destruct (CommunicationsGateway.Properties fetched) as [|p] eqn:Hprops.
  - rewrite (Update_bare client _ _ _ _ _ _ _ Hparse Hdecode Hget Hmodel Hprops).
    repeat match goal with H : HasChange metadata _ = _ |- _ => rewrite H; clear H end.
    done.
  - rewrite (Update_sends client _ _ _ _ _ _ _ _ Hparse Hdecode Hget Hmodel Hprops).
    unfold Update_resource, Update_changes, when_changed.
    repeat match goal with H : HasChange metadata _ = _ |- _ => rewrite H; clear H end.
    destruct fetched as [location properties tags]. cbn in Hprops. subst properties.
    cbn. by destruct (CreateOrUpdateThenPoll client id _ w) as [[?|] ?].
Qed.

(** X8: when the fetch of [Update] fails, not-found included, or brings no
    model, [Update] returns an error and stops: the Get is its only call,
    nothing is re-created, and the tracked identifier is kept. *)
Theorem Update_fetch_failure_stops (metadata : ResourceMetaData)
    (model : CommunicationsGatewayModel.t) (w : W) (rid : string) id resp err :
  ParseCommunicationsGatewayID rid = Ok id →
  Decode metadata = Ok model →
  Get client id w = (resp, err) →
  err ≠ None ∨ Model resp = nil_ptr →
  (∃ e, (run (Update client metadata) w rid).1 = Return (Some e)) ∧
  (run (Update client metadata) w rid).2 = mkSt w [CallGet id] rid None.
Proof.
  intros Hparse Hdecode Hget Hfailed.
  pose proof (Update_stops client metadata w rid) as Hstops.
  rewrite Hparse, Hdecode, Hget in Hstops. destruct err as [e|].
  - rewrite Hstops. by eauto.
  - destruct Hfailed as [|Hnil]; [done|]. rewrite Hnil in Hstops. rewrite Hstops. by eauto.
Qed.

(** X9: when the fetched resource carries no properties and a field that
    lives in the properties is marked changed, [Update] does not get as far
    as CreateOrUpdate: it panics on the nil pointer, or, if only the opaque
    blob stands before the dereference and does not parse, returns that
    error.  The remote state is not changed. *)
Theorem Update_without_Properties (metadata : ResourceMetaData)
    (model : CommunicationsGatewayModel.t) (w : W) (rid : string) id resp fetched :
  ParseCommunicationsGatewayID rid = Ok id →
  Decode metadata = Ok model →
  Get client id w = (resp, None) →
  Model resp = Ref fetched →
  CommunicationsGateway.Properties fetched = nil_ptr →
  Exists (λ key, HasChange metadata key = true) Update_Properties_keys →
  (run (Update client metadata) w rid).2 = mkSt w [CallGet id] rid None ∧
  ((run (Update client metadata) w rid).1 = Panic ∨
   ∃ e, json_Unmarshal (CommunicationsGatewayModel.ApiBridge model) = Err e ∧
        (run (Update client metadata) w rid).1 =
        Return (Some (Errorf "unmarshalling json value for ApiBridge: %+v" [ArgError e]))).
Proof.
  intros Hparse Hdecode Hget Hmodel Hprops Hchanged.
  rewrite (Update_bare client _ _ _ _ _ _ _ Hparse Hdecode Hget Hmodel Hprops). cbv zeta.
  destruct (HasChange metadata "codecs") eqn:?; [by eauto|].
  destruct (HasChange metadata "e911_type") eqn:?; [by eauto|].
  destruct (HasChange metadata "platforms") eqn:?; [by eauto|].
  destruct (HasChange metadata "service_location") eqn:?; [by eauto|].
  cbn [orb].
  destruct (HasChange metadata "api_bridge") eqn:?.
  { destruct (negb _); [destruct (json_Unmarshal _) eqn:?|]; by eauto. }
  destruct (HasChange metadata "emergency_dial_strings") eqn:?; [by eauto|].
  destruct (HasChange metadata "on_prem_mcp_enabled") eqn:?; [by eauto|].
  destruct (HasChange metadata "microsoft_teams_voicemail_pilot_number") eqn:?; [by eauto|].
  exfalso. unfold Update_Properties_keys in Hchanged.
  repeat (apply Exists_cons in Hchanged as [Hchanged|Hchanged]; [congruence|]).
  by apply Exists_nil in Hchanged.
Qed.

End Further_Update.

Section Further_Translation.
Context {JSON : Type} {ext : External JSON} {W : Type}.
Variable client : CommunicationsGatewaysClient JSON W.

(** Whatever [Create] sends is [Expand] of the decoded model, under the
    identity built from it. *)
Lemma Create_sent (metadata : ResourceMetaData) (w : W) (rid : string) id resource :
  In (CallCreateOrUpdate id resource) (calls (run (Create client metadata) w rid).2) →
  ∃ model,
    Decode metadata = Ok model ∧
    Expand model = Ok resource ∧
    id = NewCommunicationsGatewayID (Account_SubscriptionId metadata)
           (CommunicationsGatewayModel.ResourceGroupName model)
           (CommunicationsGatewayModel.Name model).
Proof.
  rewrite Create_cases.
  destruct (Decode metadata) as [model|e]; [|by intros []].
  cbv zeta. destruct (Get client _ w) as [existing err].
  destruct (response_WasNotFound (HttpResponse existing)).
  - destruct (Expand model) as [sent|e] eqn:Hexpand; [|by intros [|[]]].
    destruct (CreateOrUpdateThenPoll client _ sent w) as [[?|] ?].
    all: intros [|[Hsent|[]]]; [done|]; injection Hsent as <- <-; by exists model.
  - destruct err; by intros [|[]].
Qed.

(** X10: the emergency dial strings are sent differently by the two
    handlers.  [Create] sends a nil pointer for a nil list and a pointer to
    the list otherwise; [Update], with the field marked changed, always sends
    a pointer to the list, so for a nil list a pointer to a nil slice. *)
Theorem EmergencyDialStrings_Create_vs_Update :
  (∀ metadata model w rid id resource,
     Decode metadata = Ok model →
     In (CallCreateOrUpdate id resource) (calls (run (Create client metadata) w rid).2) →
     ∃ p, CommunicationsGateway.Properties resource = Ref p ∧
          CommunicationsGatewayProperties.EmergencyDialStrings p =
          if is_nil (CommunicationsGatewayModel.EmergencyDialStrings model) then nil_ptr
          else Ref (CommunicationsGatewayModel.EmergencyDialStrings model))
  ∧
  (∀ metadata model w rid id resource,
     Decode metadata = Ok model →
     HasChange metadata "emergency_dial_strings" = true →
     In (CallCreateOrUpdate id resource) (calls (run (Update client metadata) w rid).2) →
     ∃ p, CommunicationsGateway.Properties resource = Ref p ∧
          CommunicationsGatewayProperties.EmergencyDialStrings p =
          Ref (CommunicationsGatewayModel.EmergencyDialStrings model)).
Proof.
  split.
  - intros metadata model w rid id resource Hdecode Hsent.
    apply Create_sent in Hsent as (model' & Hdecode' & Hexpand & _).
    rewrite Hdecode in Hdecode'. injection Hdecode' as <-.
    unfold Expand in Hexpand. destruct (if negb _ then _ else _); [|done].
    injection Hexpand as <-. eexists. split; [done|]. cbn.
    by destruct (is_nil _).
  - intros metadata model w rid id resource Hdecode Hchanged Hsent.
    apply Update_sent in Hsent
      as (model' & resp & fetched & _ & Hdecode' & _ & _ &
          [(p & apiBridge & Hprops & _ & ->)|(_ & Hkeys & _)]).
    + rewrite Hdecode in Hdecode'. injection Hdecode' as <-.
      eexists. split; [done|].
      destruct (Update_changes_fields metadata model apiBridge p)
        as (_ & _ & _ & _ & Hstrings & _). by rewrite Hstrings, Hchanged.
    + unfold Update_Properties_keys in Hkeys.
      repeat match goal with H : Forall _ (_ :: _) |- _ =>
        apply Forall_cons in H as [? H] end. congruence.
Qed.

(** X11: whatever resource [Update] sends, flattening it shows, for every
    one of codecs, e911_type, emergency_dial_strings, on_prem_mcp_enabled,
    tags and the voicemail pilot number that is marked changed, the value of
    the configuration. *)
Theorem Update_then_Flatten_shows_changes (metadata : ResourceMetaData)
    (model : CommunicationsGatewayModel.t) (w : W) (rid : string)
    (id : CommunicationsGatewayId) (resource : CommunicationsGateway.t JSON)
    (state : CommunicationsGatewayModel.t) :
  Decode metadata = Ok model →
  In (CallCreateOrUpdate id resource) (calls (run (Update client metadata) w rid).2) →
  Flatten id resource = Ok state →
  (if HasChange metadata "codecs"
   then CommunicationsGatewayModel.Codecs state = CommunicationsGatewayModel.Codecs model
   else True) ∧
  (if HasChange metadata "e911_type"
   then CommunicationsGatewayModel.E911Type state = CommunicationsGatewayModel.E911Type model
   else True) ∧
  (if HasChange metadata "emergency_dial_strings"
   then CommunicationsGatewayModel.EmergencyDialStrings state =
        CommunicationsGatewayModel.EmergencyDialStrings model
   else True) ∧
  (if HasChange metadata "on_prem_mcp_enabled"
   then CommunicationsGatewayModel.OnPremMcpEnabled state =
        CommunicationsGatewayModel.OnPremMcpEnabled model
   else True) ∧
  (if HasChange metadata "tags"
   then CommunicationsGatewayModel.Tags state = CommunicationsGatewayModel.Tags model
   else True) ∧
  (if HasChange metadata "microsoft_teams_voicemail_pilot_number"
   then CommunicationsGatewayModel.MicrosoftTeamsVoicemailPilotNumber state =
        CommunicationsGatewayModel.MicrosoftTeamsVoicemailPilotNumber model
   else True).
Proof.
  intros Hdecode Hsent Hflat.
  apply Update_sent in Hsent
    as (model' & resp & fetched & _ & Hdecode' & _ & _ &
        [(p & apiBridge & Hprops & _ & ->)|(Hprops & Hkeys & ->)]).
  all: rewrite Hdecode in Hdecode'; injection Hdecode' as <-.
  - unfold Flatten, Read_state, Update_resource in Hflat. cbn in Hflat.
    destruct (Update_changes_fields metadata model apiBridge p)
      as (Hcodecs & Hmode & _ & _ & Hstrings & Hmcp & Hpilot & _).
    match type of Hflat with
    | match ?blob with Ok _ => _ | Err _ => _ end = _ => destruct blob; [|done]
    end.
    injection Hflat as <-. cbn. rewrite Hcodecs, Hmode, Hstrings, Hmcp, Hpilot.
    repeat match goal with |- context [HasChange metadata ?key] =>
      destruct (HasChange metadata key) end; done.
  - unfold Update_Properties_keys in Hkeys.
    repeat match goal with H : Forall _ (_ :: _) |- _ =>
      apply Forall_cons in H as [? H] end.
    repeat match goal with H : HasChange metadata _ = false |- _ => rewrite H; clear H end.
    unfold Flatten, Read_state in Hflat.
    destruct (HasChange metadata "tags"); [|done].
    destruct fetched as [location properties tags]. cbn in Hprops. subst properties.
    cbn in Hflat. by injection Hflat as <-.
Qed.

(** X12: [Read] after a [Create] that succeeded, against a remote that
    returns the resource it was given and an identity that parses back from
    its rendering, fetches under the tracked identity and encodes [Flatten]
    of [Expand] of the created model, or returns the error of re-serialising
    the opaque blob. *)
Theorem Create_then_Read (metadata metadata' : ResourceMetaData)
    (model : CommunicationsGatewayModel.t) (w w' : W) (rid : string)
    existing err resource resp :
  let id := NewCommunicationsGatewayID (Account_SubscriptionId metadata)
              (CommunicationsGatewayModel.ResourceGroupName model)
              (CommunicationsGatewayModel.Name model) in
  Decode metadata = Ok model →
  Get client id w = (existing, err) →
  response_WasNotFound (HttpResponse existing) = true →
  Expand model = Ok resource →
  CreateOrUpdateThenPoll client id resource w = (None, w') →
  ParseCommunicationsGatewayID (ID id) = Ok id →
  Get client id w' = (resp, None) →
  Model resp = Ref resource →
  let created := (run (Create client metadata) w rid).2 in
  run (Read client metadata') (remote created) (ResourceData_Id created) =
  match Flatten id resource with
  | Err e => (Return (Some e), mkSt w' [CallGet id] (ID id) None)
  | Ok state => (Return None, mkSt w' [CallGet id] (ID id) (Some state))
  end.
Proof.
  intros id Hdecode Hget Hnf Hexpand Hcreate Hparse Hget' Hmodel created.
  subst created. rewrite (Create_sends_Expand client _ _ _ _ _ _ Hdecode Hget Hnf).
  rewrite Hexpand. fold id. rewrite Hcreate. cbn [snd remote ResourceData_Id].
  by apply (Read_encodes_Flatten client _ _ _ _ resp).
Qed.

(** X13: [Flatten] fails exactly when the opaque blob of the resource is
    present and not null and cannot be serialised; a resource without
    properties, without a blob or with a null blob always flattens. *)
Theorem Flatten_fails_iff (id : CommunicationsGatewayId)
    (resource : CommunicationsGateway.t JSON) :
  (∃ e, Flatten id resource = Err e) ↔
  ∃ p v e, CommunicationsGateway.Properties resource = Ref p ∧
           CommunicationsGatewayProperties.ApiBridge p = Ref (Some v) ∧
           json_Marshal v = Err e.
Proof.
  unfold Flatten, Read_state.
  destruct (CommunicationsGateway.Properties resource) as [|p].
  { split; [by intros [? ?]|intros (? & ? & ? & [=] & _)]. }
  destruct (CommunicationsGatewayProperties.ApiBridge p) as [|[v|]] eqn:Hblob.
  1, 3: split; [by intros [? ?]|];
        intros (? & ? & ? & [= <-] & Hblob' & _); by rewrite Hblob in Hblob'.
  destruct (json_Marshal v) as [s|e] eqn:Hmarshal.
  - split; [by intros [? ?]|].
    intros (? & ? & ? & [= <-] & Hblob' & Hfail). rewrite Hblob in Hblob'.
    injection Hblob' as <-. by rewrite Hmarshal in Hfail.
  - split; [|by eauto]. intros _. by exists p, v, e.
Qed.

End Further_Translation.

(** ** More on the ESRP check and the translators *)

Lemma CustomizeDiff_range_result (model : CommunicationsGatewayModel.t)
    (rest : list ServiceRegionPropertiesModel.t) :
  CustomizeDiff_range model rest =
  if bool_decide (CommunicationsGatewayModel.E911Type model = E911TypeStandard) then
    if existsb (λ sls, bool_decide (0 < len (ServiceRegionPropertiesModel.EsrpAddresses sls)))
         rest
    then Some (Errorf "the esrp_addresses of %s must not be provided for each service_location when e911_type is set to Standard"
                 [ArgString (CommunicationsGatewayModel.Name model)])
    else None
  else
    if existsb (λ sls, bool_decide (len (ServiceRegionPropertiesModel.EsrpAddresses sls) = 0))
         rest
    then Some (Errorf "the esrp_addresses of %s must be provided for each service_location when e911_type is set to DirectToEsrp"
                 [ArgString (CommunicationsGatewayModel.Name model)])
    else None.
Proof.
  induction rest as [|sls rest IH]; cbn [CustomizeDiff_range existsb].
  - by case_bool_decide.
  - rewrite IH. repeat case_bool_decide; done.
Qed.

Lemma existsb_same_elements {A} (f : A → bool) (l l' : list A) :
  (∀ x, x ∈ l ↔ x ∈ l') → existsb f l = existsb f l'.
Proof.
  intros Hsame. apply eq_true_iff_eq. rewrite !existsb_exists.
  split; intros (x & Hx & Hf); exists x; (split; [|done]).
  all: apply list_elem_of_In, Hsame, list_elem_of_In, Hx.
Qed.

(** X14: the error of [CustomizeDiff] is chosen by the mode alone and names
    the gateway: in Standard mode it is the must-not-be-provided error as
    soon as one service location has ESRP addresses, in any other mode the
    must-be-provided error as soon as one has none (a nil list counts as
    none); otherwise, and so with no service location at all, the check
    passes. *)
Theorem CustomizeDiff_result (metadata : ResourceMetaData)
    (model : CommunicationsGatewayModel.t) :
  DecodeDiff metadata = Ok model →
  CustomizeDiff metadata =
  (let locations := elems (CommunicationsGatewayModel.ServiceLocation model) in
   let given sls := bool_decide (0 < len (ServiceRegionPropertiesModel.EsrpAddresses sls)) in
   if bool_decide (CommunicationsGatewayModel.E911Type model = E911TypeStandard) then
     if existsb given locations
     then Some (Errorf "the esrp_addresses of %s must not be provided for each service_location when e911_type is set to Standard"
                  [ArgString (CommunicationsGatewayModel.Name model)])
     else None
   else
     if forallb given locations
     then None
     else Some (Errorf "the esrp_addresses of %s must be provided for each service_location when e911_type is set to DirectToEsrp"
                  [ArgString (CommunicationsGatewayModel.Name model)])).
Proof.
  intros Hdecode. unfold CustomizeDiff. rewrite Hdecode, CustomizeDiff_range_result.
  cbv zeta. case_bool_decide; [done|].
  induction (elems (CommunicationsGatewayModel.ServiceLocation model)) as [|sls rest IH];
    [done|].
  cbn [existsb forallb]. repeat case_bool_decide; cbn [orb andb]; try done; lia.
Qed.

(** X15: the verdict of [CustomizeDiff] depends on the service locations
    only as a set: two plans with the same name and mode whose service
    locations are the same up to order and repetition get the same result. *)
Theorem CustomizeDiff_set_invariant (metadata metadata' : ResourceMetaData)
    (model model' : CommunicationsGatewayModel.t) :
  DecodeDiff metadata = Ok model →
  DecodeDiff metadata' = Ok model' →
  CommunicationsGatewayModel.Name model = CommunicationsGatewayModel.Name model' →
  CommunicationsGatewayModel.E911Type model = CommunicationsGatewayModel.E911Type model' →
  (∀ sls, sls ∈ elems (CommunicationsGatewayModel.ServiceLocation model) ↔
          sls ∈ elems (CommunicationsGatewayModel.ServiceLocation model')) →
  CustomizeDiff metadata = CustomizeDiff metadata'.
Proof.
  intros Hdecode Hdecode' Hname Hmode Hsame. unfold CustomizeDiff.
  rewrite Hdecode, Hdecode', !CustomizeDiff_range_result, Hname, Hmode.
  by rewrite !(existsb_same_elements _ _ _ Hsame).
Qed.

Section Fixed_points.
Context {JSON : Type} {ext : External JSON}.

(** X16: translating a platforms list there and back gives the list again
    exactly when it is not the empty non-nil list, from either side: the
    model's list through [expandCommunicationsPlatformModel] and back, and
    the remote list through [flattenCommunicationsPlatformModel] and back. *)
Theorem platforms_there_and_back (input : slice string)
    (remote : slice CommunicationsPlatform) :
  (flattenCommunicationsPlatformModel (expandCommunicationsPlatformModel input) = input ↔
   input ≠ Slice []) ∧
  (expandCommunicationsPlatformModel (flattenCommunicationsPlatformModel remote) = remote ↔
   remote ≠ Slice []).
Proof.
  split; (split; [by intros Heq ->|]).
  - apply platforms_roundtrip.
  - intros Hremote. rewrite flattenCommunicationsPlatformModel_elems.
    destruct remote as [|[|v l]]; [done..|]. cbn [elems].
    rewrite expandCommunicationsPlatformModel_elems. cbn [elems].
    by rewrite !list_fmap_id.
Qed.

Lemma flattenCommunicationsPlatformModel_not_empty (remote : slice CommunicationsPlatform) :
  flattenCommunicationsPlatformModel remote ≠ Slice [].
Proof. rewrite flattenCommunicationsPlatformModel_elems. by destruct (elems remote). Qed.

(** X17: reading is stable.  With an idempotent location normaliser and a
    JSON codec that parses what it serialises back to a value serialising the
    same, the state [Flatten] gives for a resource with properties is a fixed
    point of the round trip: [Expand] accepts it and [Flatten] of the result
    is that state again. *)
Theorem Flatten_state_is_stable (id : CommunicationsGatewayId)
    (resource : CommunicationsGateway.t JSON) (p : CommunicationsGatewayProperties.t JSON)
    (state : CommunicationsGatewayModel.t) :
  (∀ x, location_Normalize (location_Normalize x) = location_Normalize x) →
  (∀ v s, json_Marshal v = Ok s → s ≠ "" →
          ∃ v', json_Unmarshal s = Ok (Some v') ∧ json_Marshal v' = Ok s) →
  CommunicationsGateway.Properties resource = Ref p →
  Flatten id resource = Ok state →
  ∃ again, Expand state = Ok again ∧ Flatten id again = Ok state.
Proof.
  intros Hidem Hcodec Hprops Hflat. unfold Flatten, Read_state in Hflat.
  rewrite Hprops in Hflat.
  match type of Hflat with
  | match ?blob with Ok _ => _ | Err _ => _ end = _ =>
      destruct blob as [s|] eqn:Hblob; [|done]
  end.
  injection Hflat as <-.
  assert (Hvalue : ∃ v,
    (if negb (bool_decide (s = ""))
     then match json_Unmarshal s with
          | Err err => Err (Errorf "unmarshalling value for ApiBridge: %+v" [ArgError err])
          | Ok v => Ok v
          end
     else Ok None) = Ok v ∧
    match v with
    | Some v => json_Marshal v
    | None => Ok ""
    end = Ok s).
  { case_bool_decide as Hs; cbn [negb]; [exists None; by subst|].
    destruct (CommunicationsGatewayProperties.ApiBridge p) as [|[v|]];
      [by injection Hblob as <-| |by injection Hblob as <-].
    destruct (json_Marshal v) as [s'|] eqn:Hmarshal; [|done]. injection Hblob as ->.
    destruct (Hcodec v s Hmarshal Hs) as (v' & Hparse & Hagain).
    exists (Some v'). by rewrite Hparse. }
  destruct Hvalue as (v & Hexpand & Hagain).
  unfold Expand.
  cbn -[flattenServiceRegionPropertiesModel flattenCommunicationsPlatformModel
        expandServiceRegionPropertiesModel expandCommunicationsPlatformModel].
  rewrite Hexpand. eexists. split; [done|].
  unfold Flatten, Read_state.
  cbn -[flattenServiceRegionPropertiesModel flattenCommunicationsPlatformModel
        expandServiceRegionPropertiesModel expandCommunicationsPlatformModel].
  rewrite platforms_roundtrip by apply flattenCommunicationsPlatformModel_not_empty.
  rewrite service_locations_roundtrip, !Hidem.
  - destruct v as [v|]; [rewrite Hagain|injection Hagain as <-].
    all: destruct (CommunicationsGatewayProperties.EmergencyDialStrings p) as [|[|?]];
      try done.
  - by rewrite range_append_make.
  - rewrite range_append_make. cbn [elems].
    apply Forall_fmap, Forall_forall. intros sls _. apply Hidem.
Qed.

End Fixed_points.

(** X18: on a plan whose mode is one of the two values the schema admits,
    [CustomizeDiff] returns an error exactly when some service location has
    ESRP addresses in Standard mode or has none in DirectToEsrp mode. *)
Theorem CustomizeDiff_on_schema_mode (metadata : ResourceMetaData)
    (model : CommunicationsGatewayModel.t) :
  DecodeDiff metadata = Ok model →
  CommunicationsGatewayModel.E911Type model ∈ e911_type_values →
  is_Some (CustomizeDiff metadata) ↔
  ∃ sls, sls ∈ elems (CommunicationsGatewayModel.ServiceLocation model) ∧
         esrp_rule_violated_as_specified model sls.
Proof.
  intros Hdecode Hmode. unfold CustomizeDiff. rewrite Hdecode.
  rewrite CustomizeDiff_range_violation, Exists_exists.
  assert (Hsame : ∀ sls, esrp_rule_violated model sls ↔
                         esrp_rule_violated_as_specified model sls).
  { intros sls. unfold esrp_rule_violated, esrp_rule_violated_as_specified.
    unfold e911_type_values in Hmode.
    apply elem_of_cons in Hmode as [->|Hmode];
      [|apply list_elem_of_singleton in Hmode as ->].
    - split; (intros [[? ?]|[? ?]]; [done|by right]).
    - split; (intros [[? ?]|[? ?]]; [by left|done]). }
  split; intros (sls & Hin & Hviolated); exists sls; (split; [done|]); by apply Hsame.
Qed.

Section Service_locations.
Context {JSON : Type} {ext : External JSON}.

(** X19: no service location is dropped or added in either direction, and
    neither translation of the service locations ever yields nil: the
    expanded list and the flattened list are non-nil and as long as the
    input, a nil input included. *)
Theorem service_locations_kept (inputList : slice ServiceRegionPropertiesModel.t)
    (remote : slice ServiceRegionProperties.t) :
  is_nil (expandServiceRegionPropertiesModel inputList) = false ∧
  len (expandServiceRegionPropertiesModel inputList) = len inputList ∧
  is_nil (flattenServiceRegionPropertiesModel (Ref remote)) = false ∧
  len (flattenServiceRegionPropertiesModel (Ref remote)) = len remote.
Proof.
  rewrite expandServiceRegionPropertiesModel_elems, flattenServiceRegionPropertiesModel_elems.
  unfold len. cbn [elems is_nil]. by rewrite !length_fmap.
Qed.

Lemma StringSlice_back (v : ptr (slice string)) :
  v ≠ Ref nil_slice →
  utils.StringSlice match v with
                    | nil_ptr => nil_slice
                    | Ref s => s
                    end = v.
Proof. by destruct v as [|[|?]]. Qed.

(** X20: the remote service locations survive [flatten] then [expand]
    when the list is not nil, every name is left alone by normalising twice,
    and no address list is a pointer to a nil slice. *)
Theorem remote_service_locations_roundtrip (remote : slice ServiceRegionProperties.t) :
  remote ≠ nil_slice →
  Forall (λ location,
    let addresses := ServiceRegionProperties.PrimaryRegionProperties location in
    location_Normalize (location_Normalize (ServiceRegionProperties.Name location)) =
      ServiceRegionProperties.Name location ∧
    PrimaryRegionProperties.AllowedMediaSourceAddressPrefixes addresses ≠ Ref nil_slice ∧
    PrimaryRegionProperties.AllowedSignalingSourceAddressPrefixes addresses ≠ Ref nil_slice ∧
    PrimaryRegionProperties.EsrpAddresses addresses ≠ Ref nil_slice) (elems remote) →
  expandServiceRegionPropertiesModel (flattenServiceRegionPropertiesModel (Ref remote)) =
  remote.
Proof.
  intros Hnonnil Hlocations. destruct remote as [|l]; [done|]. clear Hnonnil.
  rewrite flattenServiceRegionPropertiesModel_elems, expandServiceRegionPropertiesModel_elems.
  cbn [elems] in *. f_equal. rewrite <- list_fmap_compose.
  induction Hlocations as [|location l (Hname & Hmedia & Hsignaling & Hesrp) _ IH]; [done|].
  cbn [fmap list_fmap]. f_equal; [|done]. cbn.
  rewrite !StringSlice_back, Hname by done.
  destruct location as [name [media signaling esrp [|operators]]]; done.
Qed.

End Service_locations.

Section Create_pointers.
Context {JSON : Type} {ext : External JSON} {W : Type}.
Variable client : CommunicationsGatewaysClient JSON W.

(** X21: whatever [Create] sends has its properties set, exactly one codec,
    and every optional pointer other than the emergency dial strings
    non-nil, whatever the configuration: the opaque blob, the domain-label
    scope, the on-prem MCP flag, the voicemail pilot number (a pointer to the
    empty string when none is configured) and the tags. *)
Theorem Create_sends_pointers_set (metadata : ResourceMetaData) (w : W) (rid : string)
    (id : CommunicationsGatewayId) (resource : CommunicationsGateway.t JSON) :
  In (CallCreateOrUpdate id resource) (calls (run (Create client metadata) w rid).2) →
  ∃ model p blob,
    Decode metadata = Ok model ∧
    CommunicationsGateway.Properties resource = Ref p ∧
    CommunicationsGatewayProperties.Codecs p =
      Slice [CommunicationsGatewayModel.Codecs model] ∧
    CommunicationsGatewayProperties.ApiBridge p = Ref blob ∧
    CommunicationsGatewayProperties.AutoGeneratedDomainNameLabelScope p =
      Ref (CommunicationsGatewayModel.AutoGeneratedDomainNameLabelScope model) ∧
    CommunicationsGatewayProperties.OnPremMcpEnabled p =
      Ref (CommunicationsGatewayModel.OnPremMcpEnabled model) ∧
    CommunicationsGatewayProperties.TeamsVoicemailPilotNumber p =
      Ref (CommunicationsGatewayModel.MicrosoftTeamsVoicemailPilotNumber model) ∧
    CommunicationsGateway.Tags resource = Ref (CommunicationsGatewayModel.Tags model).
Proof.
  intros Hsent. apply Create_sent in Hsent as (model & Hdecode & Hexpand & _).
  unfold Expand in Hexpand. destruct (if negb _ then _ else _) as [blob|]; [|done].
  injection Hexpand as <-. by eexists model, _, blob.
Qed.

End Create_pointers.

(** ** The further properties on the in-memory double *)


Lemma Update_keeps_immutable_fields_witness :
  ∃ resp fetched,
    Get Fake.client Fake.abc_id Fake.store_abc = (resp, None) ∧
    Model resp = Ref fetched ∧
    CommunicationsGateway.Location Fake.abc_pcmu_remote =
      CommunicationsGateway.Location fetched ∧
    match CommunicationsGateway.Properties fetched with
    | nil_ptr => CommunicationsGateway.Properties Fake.abc_pcmu_remote = nil_ptr
    | Ref p =>
        ∃ q, CommunicationsGateway.Properties Fake.abc_pcmu_remote = Ref q ∧
             CommunicationsGatewayProperties.Connectivity q =
               CommunicationsGatewayProperties.Connectivity p ∧
             CommunicationsGatewayProperties.AutoGeneratedDomainNameLabelScope q =
               CommunicationsGatewayProperties.AutoGeneratedDomainNameLabelScope p
    end.
Proof.
  apply (Update_keeps_immutable_fields Fake.client (Fake.metadata Fake.abc_pcmu ["codecs"])
           Fake.store_abc (Fake.render Fake.abc_id) Fake.abc_id Fake.abc_pcmu_remote).
  vm_compute. right. left. reflexivity.
Defined.

Lemma Update_nothing_changed_witness :
  (run (Update Fake.client (Fake.metadata Fake.abc_pcmu []))
     Fake.store_abc (Fake.render Fake.abc_id)).1 = Return None ∧
  calls (run (Update Fake.client (Fake.metadata Fake.abc_pcmu []))
           Fake.store_abc (Fake.render Fake.abc_id)).2 =
    [CallGet Fake.abc_id; CallCreateOrUpdate Fake.abc_id Fake.abc_remote].
Proof.
  rewrite (Update_nothing_changed Fake.client (Fake.metadata Fake.abc_pcmu []) Fake.abc_pcmu
             Fake.store_abc (Fake.render Fake.abc_id) Fake.abc_id Fake.abc_found
             Fake.abc_remote); [by split|by repeat constructor|reflexivity..].
Defined.

Lemma Update_fetch_failure_stops_witness :
  (∃ e, (run (Update Fake.client (Fake.metadata Fake.abc_pcmu ["codecs"]))
           ∅ (Fake.render Fake.abc_id)).1 = Return (Some e)) ∧
  (run (Update Fake.client (Fake.metadata Fake.abc_pcmu ["codecs"]))
     ∅ (Fake.render Fake.abc_id)).2 =
  mkSt ∅ [CallGet Fake.abc_id] (Fake.render Fake.abc_id) None.
Proof.
  apply (Update_fetch_failure_stops Fake.client (Fake.metadata Fake.abc_pcmu ["codecs"])
           Fake.abc_pcmu ∅ (Fake.render Fake.abc_id) Fake.abc_id Fake.abc_missing
           (Some (Failure "ResourceNotFound"))); [reflexivity..|by left].
Defined.

Lemma Update_without_Properties_witness :
  (run (Update Fake.client (Fake.metadata Fake.abc_pcmu ["codecs"]))
     Samples.store_bare (Fake.render Fake.abc_id)).2 =
  mkSt Samples.store_bare [CallGet Fake.abc_id] (Fake.render Fake.abc_id) None ∧
  ((run (Update Fake.client (Fake.metadata Fake.abc_pcmu ["codecs"]))
      Samples.store_bare (Fake.render Fake.abc_id)).1 = Panic ∨
   ∃ e, json_Unmarshal (CommunicationsGatewayModel.ApiBridge Fake.abc_pcmu) = Err e ∧
        (run (Update Fake.client (Fake.metadata Fake.abc_pcmu ["codecs"]))
           Samples.store_bare (Fake.render Fake.abc_id)).1 =
        Return (Some (Errorf "unmarshalling json value for ApiBridge: %+v" [ArgError e]))).
Proof.
  apply (Update_without_Properties Fake.client (Fake.metadata Fake.abc_pcmu ["codecs"])
           Fake.abc_pcmu Samples.store_bare (Fake.render Fake.abc_id) Fake.abc_id
           Samples.bare_found Samples.bare_remote); [reflexivity..|].
  by apply Exists_cons_hd.
Defined.

Lemma EmergencyDialStrings_Create_vs_Update_witness :
  (∃ p, CommunicationsGateway.Properties Fake.abc_remote = Ref p ∧
        CommunicationsGatewayProperties.EmergencyDialStrings p = nil_ptr)
  ∧
  (∃ p, CommunicationsGateway.Properties Samples.abc_strings_remote = Ref p ∧
        CommunicationsGatewayProperties.EmergencyDialStrings p = Ref nil_slice).
Proof.
  destruct (EmergencyDialStrings_Create_vs_Update Fake.client) as [HCreate HUpdate]. split.
  - refine (HCreate (Fake.metadata Fake.abc []) Fake.abc ∅ "" Fake.abc_id Fake.abc_remote
              eq_refl _).
    vm_compute. right. left. reflexivity.
  - refine (HUpdate (Fake.metadata Fake.abc ["emergency_dial_strings"]) Fake.abc
              Fake.store_abc (Fake.render Fake.abc_id) Fake.abc_id
              Samples.abc_strings_remote eq_refl eq_refl _).
    vm_compute. right. left. reflexivity.
Defined.

Lemma Update_then_Flatten_shows_changes_witness :
  if HasChange (Fake.metadata Fake.abc_pcmu ["codecs"]) "codecs"
  then CommunicationsGatewayModel.Codecs Fake.abc_pcmu =
       CommunicationsGatewayModel.Codecs Fake.abc_pcmu
  else True.
Proof.
  refine (proj1 (Update_then_Flatten_shows_changes Fake.client
                   (Fake.metadata Fake.abc_pcmu ["codecs"]) Fake.abc_pcmu Fake.store_abc
                   (Fake.render Fake.abc_id) Fake.abc_id Fake.abc_pcmu_remote Fake.abc_pcmu
                   eq_refl _ eq_refl)).
  vm_compute. right. left. reflexivity.
Defined.

Lemma Create_then_Read_witness :
  let created := (run (Create Fake.client (Fake.metadata Fake.abc [])) ∅ "").2 in
  run (Read Fake.client (Fake.metadata Fake.abc [])) (remote created)
    (ResourceData_Id created) =
  (Return None,
   mkSt Fake.store_abc [CallGet Fake.abc_id] (Fake.render Fake.abc_id) (Some Fake.abc)).
Proof.
  exact (Create_then_Read Fake.client (Fake.metadata Fake.abc []) (Fake.metadata Fake.abc [])
           Fake.abc ∅ Fake.store_abc "" Fake.abc_missing (Some (Failure "ResourceNotFound"))
           Fake.abc_remote Fake.abc_found
           eq_refl eq_refl eq_refl eq_refl eq_refl eq_refl eq_refl eq_refl).
Defined.

Lemma CustomizeDiff_result_witness : CustomizeDiff (Fake.metadata Fake.direct []) = None.
Proof. exact (CustomizeDiff_result (Fake.metadata Fake.direct []) Fake.direct eq_refl). Defined.

Lemma CustomizeDiff_set_invariant_witness :
  CustomizeDiff (Fake.metadata Samples.east_west []) =
  CustomizeDiff (Fake.metadata Samples.west_east []).
Proof.
  apply (CustomizeDiff_set_invariant _ _ Samples.east_west Samples.west_east);
    [reflexivity..|].
  intros sls. cbn. rewrite !elem_of_cons. tauto.
Defined.

Lemma to_lower_stable (c : ascii) :
  c ≠ " "%char →
  Fake.to_lower c ≠ " "%char ∧ Fake.to_lower (Fake.to_lower c) = Fake.to_lower c.
Proof.
  destruct c as [[] [] [] [] [] [] [] []]; intros Hc; vm_compute;
    first [by destruct Hc | split; [intros [=]|reflexivity]].
Qed.

Lemma Fake_Normalize_idempotent (input : string) :
  Fake.Normalize (Fake.Normalize input) = Fake.Normalize input.
Proof.
  induction input as [|c rest IH]; [done|]. cbn [Fake.Normalize].
  case_bool_decide as Hc; [done|]. cbn [Fake.Normalize].
  destruct (to_lower_stable c Hc) as [Hspace Hlower].
  by rewrite bool_decide_eq_false_2, Hlower, IH.
Qed.

Lemma Flatten_state_is_stable_witness :
  ∃ again : CommunicationsGateway.t Fake.JSON,
    Expand Fake.abc = Ok again ∧ Flatten Fake.abc_id again = Ok Fake.abc.
Proof.
  eapply (Flatten_state_is_stable Fake.abc_id Fake.abc_remote _ Fake.abc).
  - apply Fake_Normalize_idempotent.
  - intros [] s [= <-] _; by eexists.
  - reflexivity.
  - reflexivity.
Defined.

Lemma CustomizeDiff_on_schema_mode_witness :
  is_Some (CustomizeDiff (Fake.metadata Fake.direct [])) ↔
  ∃ sls, sls ∈ elems (CommunicationsGatewayModel.ServiceLocation Fake.direct) ∧
         esrp_rule_violated_as_specified Fake.direct sls.
Proof.
  apply (CustomizeDiff_on_schema_mode (Fake.metadata Fake.direct []) Fake.direct);
    [reflexivity|]. by left.
Defined.

Lemma remote_service_locations_roundtrip_witness :
  expandServiceRegionPropertiesModel
    (flattenServiceRegionPropertiesModel
       (Ref (expandServiceRegionPropertiesModel (Slice [Fake.eastus; Fake.westus])))) =
  expandServiceRegionPropertiesModel (Slice [Fake.eastus; Fake.westus]).
Proof.
  apply remote_service_locations_roundtrip; [done|]. by repeat constructor.
Defined.

Lemma Create_sends_pointers_set_witness :
  ∃ model p blob,
    Decode (Fake.metadata Fake.abc []) = Ok model ∧
    CommunicationsGateway.Properties Fake.abc_remote = Ref p ∧
    CommunicationsGatewayProperties.Codecs p =
      Slice [CommunicationsGatewayModel.Codecs model] ∧
    CommunicationsGatewayProperties.ApiBridge p = Ref blob ∧
    CommunicationsGatewayProperties.AutoGeneratedDomainNameLabelScope p =
      Ref (CommunicationsGatewayModel.AutoGeneratedDomainNameLabelScope model) ∧
    CommunicationsGatewayProperties.OnPremMcpEnabled p =
      Ref (CommunicationsGatewayModel.OnPremMcpEnabled model) ∧
    CommunicationsGatewayProperties.TeamsVoicemailPilotNumber p =
      Ref (CommunicationsGatewayModel.MicrosoftTeamsVoicemailPilotNumber model) ∧
    CommunicationsGateway.Tags Fake.abc_remote = Ref (CommunicationsGatewayModel.Tags model).
Proof.
  apply (Create_sends_pointers_set Fake.client (Fake.metadata Fake.abc []) ∅ ""
           Fake.abc_id Fake.abc_remote).
  vm_compute. right. left. reflexivity.
Defined.
